(** * A shallow embedding of the programmable rate limiter (src/index.ts)

    The Durable Object [Counter], its token [Bucket] and the [Configuration]
    normalisation are embedded as executable Rocq functions, and the
    properties of the decision engine are proved about them.

    Modelling choices.
    - A JavaScript [number] is [NaN], a signed infinity, or a finite value
      carried as an exact rational.  The rounding of the binary64 format is
      not modelled, and the two zeros are not told apart (the program never
      divides by a zero that could carry a sign to the result).  The
      program rounds: [1/49*49] is below 1 and [10/77*77] below 10 for it,
      sums above 2^53 lose their last bits, [10/1e-308] overflows.  The
      statements whose truth depends on the value of an arithmetic result
      are therefore made on safe integers ([MAX_SAFE_INTEGER]) and, where
      they depend on the quotient [requests / per_seconds], for a quota
      that is a whole multiple of the window; there every value the
      statement depends on is an integer that the program computes without
      rounding, or the conclusion is a sign or a bound that rounding to
      nearest keeps.  Lemmas that are not stated in this way are facts of
      the exact arithmetic, used as steps of proofs.
    - [Number] of a string reads ASCII text and does not round its decimal
      literal to the binary64 format; no statement depends on the value it
      gives to a particular string beyond the examples.
    - A value of type [any] is a primitive or an object; an object is
      represented by the string its [toString] yields, which is all that
      [Number(...)] sees of a plain object or an array.
    - The methods of [Counter] mutate [this]; they are written in a small
      state monad over the record of the fields of [this].
    - The durable storage is a finite map from keys to stored values.
    - The clock ([new Date().getTime()]) and the parsed [_configuration]
      header are the inputs of [fetch]; the text of the header is
      represented by the object [JSON.parse] yields for it.
    - The host runs the requests of one identifier one at a time; a run of
      the engine is a list of requests served in order.  The routing of an
      identifier to its Durable Object and the decoding of a JWT are not
      modelled. *)

From Stdlib Require Import ZArith QArith Qround Qminmax Lqa Lia Bool.
From Stdlib Require Import List String Ascii.
From stdpp Require Import base strings gmap.
Import ListNotations.

Local Open Scope Z_scope.

(** ** JavaScript numbers *)

Inductive number : Type :=
| NaN
| Infinity (negative : bool)
| Fin (q : Q).

Module Num.

Definition of_Z (z : Z) : number := Fin (inject_Z z).

Definition Qltb (x y : Q) : bool := negb (Qle_bool y x).

Definition is_neg (q : Q) : bool := Qltb q 0.

Definition is_zero (q : Q) : bool := Qeq_bool q 0.

(** [a + b] *)
Definition add (a b : number) : number :=
  match a, b with
  | NaN, _ | _, NaN => NaN
  | Fin x, Fin y => Fin (x + y)
  | Fin _, Infinity s => Infinity s
  | Infinity s, Fin _ => Infinity s
  | Infinity s, Infinity s' => if Bool.eqb s s' then Infinity s else NaN
  end.

(** [a - b] *)
Definition sub (a b : number) : number :=
  match a, b with
  | NaN, _ | _, NaN => NaN
  | Fin x, Fin y => Fin (x - y)
  | Fin _, Infinity s => Infinity (negb s)
  | Infinity s, Fin _ => Infinity s
  | Infinity s, Infinity s' => if Bool.eqb s s' then NaN else Infinity s
  end.

(** [a * b] *)
Definition mul (a b : number) : number :=
  match a, b with
  | NaN, _ | _, NaN => NaN
  | Fin x, Fin y => Fin (x * y)
  | Fin x, Infinity s | Infinity s, Fin x =>
      if is_zero x then NaN else Infinity (xorb s (is_neg x))
  | Infinity s, Infinity s' => Infinity (xorb s s')
  end.

(** [a / b] *)
Definition div (a b : number) : number :=
  match a, b with
  | NaN, _ | _, NaN => NaN
  | Fin x, Fin y =>
      if is_zero y
      then (if is_zero x then NaN else Infinity (is_neg x))
      else Fin (x / y)
  | Fin _, Infinity _ => Fin 0
  | Infinity s, Fin y => Infinity (xorb s (is_neg y))
  | Infinity _, Infinity _ => NaN
  end.

(** [a <= b] *)
Definition le (a b : number) : bool :=
  match a, b with
  | NaN, _ | _, NaN => false
  | Fin x, Fin y => Qle_bool x y
  | Fin _, Infinity s => negb s
  | Infinity s, Fin _ => s
  | Infinity s, Infinity s' => implb s' s
  end.

(** [a < b] *)
Definition lt (a b : number) : bool :=
  match a, b with
  | NaN, _ | _, NaN => false
  | Fin x, Fin y => Qltb x y
  | Fin _, Infinity s => negb s
  | Infinity s, Fin _ => s
  | Infinity s, Infinity s' => s && negb s'
  end.

(** [a === b] on two numbers *)
Definition strict_eq (a b : number) : bool :=
  match a, b with
  | NaN, _ | _, NaN => false
  | Fin x, Fin y => Qeq_bool x y
  | Infinity s, Infinity s' => Bool.eqb s s'
  | _, _ => false
  end.

(** ToBoolean on a number: [0] and [NaN] are falsy. *)
Definition truthy (a : number) : bool :=
  match a with
  | NaN => false
  | Infinity _ => true
  | Fin x => negb (is_zero x)
  end.

(** [Math.floor(a)] *)
Definition floor (a : number) : number :=
  match a with
  | Fin x => of_Z (Qfloor x)
  | _ => a
  end.

(** [Math.trunc(a)] *)
Definition trunc (a : number) : number :=
  match a with
  | Fin x => of_Z (if is_neg x then Qceiling x else Qfloor x)
  | _ => a
  end.

(** [Math.min(a, b)] *)
Definition min (a b : number) : number :=
  match a, b with
  | NaN, _ | _, NaN => NaN
  | _, _ => if le a b then a else b
  end.

End Num.

Declare Scope num_scope.
Delimit Scope num_scope with num.
Bind Scope num_scope with number.
Notation "a + b" := (Num.add a b) : num_scope.
Notation "a - b" := (Num.sub a b) : num_scope.
Notation "a * b" := (Num.mul a b) : num_scope.
Notation "a / b" := (Num.div a b) : num_scope.
Notation "a <= b" := (Num.le a b) : num_scope.
Notation "a < b" := (Num.lt a b) : num_scope.

Coercion Num.of_Z : Z >-> number.

(** ** Values of type [any] and the conversion [Number(...)] *)

Inductive value : Type :=
| undefined
| null
| boolean (b : bool)
| num (n : number)
| str (s : string)
| object (to_string : string).

Module StringToNumber.

Definition is_white_space (c : ascii) : bool :=
  let n := N_of_ascii c in
  ((9 <=? n) && (n <=? 13) || (n =? 32))%N.

Fixpoint trim_start (l : list ascii) : list ascii :=
  match l with
  | c :: r => if is_white_space c then trim_start r else l
  | [] => []
  end.

Definition trim (l : list ascii) : list ascii :=
  rev (trim_start (rev (trim_start l))).

(** The value of a digit in the given radix, if it is one. *)
Definition digit (radix : Z) (c : ascii) : option Z :=
  let n := Z.of_N (N_of_ascii c) in
  let d := if (48 <=? n) && (n <=? 57) then n - 48
           else if (97 <=? n) && (n <=? 122) then n - 87
           else if (65 <=? n) && (n <=? 90) then n - 55
           else radix in
  if d <? radix then Some d else None.

(** Reads the longest prefix of digits: its value, its length, the rest. *)
Fixpoint digits (radix : Z) (acc : Z) (len : nat) (l : list ascii)
  : Z * nat * list ascii :=
  match l with
  | c :: r =>
      match digit radix c with
      | Some d => digits radix (acc * radix + d) (S len) r
      | None => (acc, len, l)
      end
  | [] => (acc, len, [])
  end.

Definition sign (l : list ascii) : bool * list ascii :=
  match l with
  | "-"%char :: r => (true, r)
  | "+"%char :: r => (false, r)
  | _ => (false, l)
  end.

(** NonDecimalIntegerLiteral without its two-character prefix. *)
Definition integer (radix : Z) (l : list ascii) : number :=
  match digits radix 0 0 l with
  | (v, S _, []) => Num.of_Z v
  | _ => NaN
  end.

(** ExponentPart, optional: the power of ten, if the text is well formed. *)
Definition exponent (l : list ascii) : option Z :=
  match l with
  | [] => Some 0
  | c :: r =>
      if (c =? "e")%char || (c =? "E")%char
      then let '(neg, r1) := sign r in
           match digits 10 0 0 r1 with
           | (v, S _, []) => Some (if neg then - v else v)
           | _ => None
           end
      else None
  end.

(** StrDecimalLiteral *)
Definition decimal (l : list ascii) : number :=
  let '(neg, l1) := sign l in
  if String.eqb (string_of_list_ascii l1) "Infinity" then Infinity neg
  else
    let '(ip, ni, l2) := digits 10 0 0 l1 in
    let '(fp, nf, l3) :=
      match l2 with
      | "."%char :: r => digits 10 0 0 r
      | _ => (0, 0%nat, l2)
      end in
    match (ni + nf)%nat, exponent l3 with
    | S _, Some e =>
        let m := (inject_Z ip + inject_Z fp / inject_Z (10 ^ Z.of_nat nf))%Q in
        let v := (m * Qpower (inject_Z 10) e)%Q in
        Fin (Qred (if neg then - v else v))
    | _, _ => NaN
    end.

(** StringToNumber of the language definition, on ASCII text. *)
Definition parse (s : string) : number :=
  match trim (list_ascii_of_string s) with
  | [] => Num.of_Z 0
  | "0"%char :: p :: r =>
      if (p =? "x")%char || (p =? "X")%char then integer 16 r
      else if (p =? "o")%char || (p =? "O")%char then integer 8 r
      else if (p =? "b")%char || (p =? "B")%char then integer 2 r
      else decimal ("0"%char :: p :: r)
  | l => decimal l
  end.

End StringToNumber.

(** [Number(v)] *)
Definition Number (v : value) : number :=
  match v with
  | undefined => NaN
  | null => Num.of_Z 0
  | boolean b => Num.of_Z (if b then 1 else 0)
  | num n => n
  | str s => StringToNumber.parse s
  | object s => StringToNumber.parse s
  end.

(** [n || null], for a number [n] *)
Definition or_null (n : number) : option number :=
  if Num.truthy n then Some n else None.

(** ** A state monad for the methods that mutate [this] *)

Definition State (S A : Type) : Type := S -> A * S.

Definition ret {S A} (a : A) : State S A := fun s => (a, s).

Definition bind {S A B} (m : State S A) (k : A -> State S B) : State S B :=
  fun s => let '(a, s') := m s in k a s'.

Definition gets {S A} (f : S -> A) : State S A := fun s => (f s, s).

Definition modify {S} (f : S -> S) : State S unit := fun s => (tt, f s).

Declare Scope state_scope.
Delimit Scope state_scope with state.
Notation "'let*' x := m 'in' k" := (bind m (fun x => k))
  (at level 10, x name, m at level 100, k at level 200) : state_scope.
Notation "'exec' m 'in' k" := (bind m (fun _ => k))
  (at level 10, m at level 100, k at level 200) : state_scope.

(** ** [enum Behavior] *)

Module Behavior.
Definition Blocking : number := Num.of_Z 0.
Definition Throttling : number := Num.of_Z 1.
End Behavior.

Definition DEFAULT_BEHAVIOR : value := num Behavior.Blocking.

(** [v !== Behavior.Blocking]: strict inequality of a value and a number;
    a value that is not a number is never strictly equal to one. *)
Definition not_Blocking (v : value) : bool :=
  match v with
  | num n => negb (Num.strict_eq n Behavior.Blocking)
  | _ => true
  end.

(** ** [class Bucket] *)

Module Bucket.

Record t : Type := mk {
  max : number;     (* maximum number of tokens the bucket can take *)
  tokens : number;  (* number of tokens currently available *)
  active : bool     (* has the bucket been used yet *)
}.

(** [constructor(max = 0, tokens = max, active = false)] *)
Definition constructor (max : option number) (tokens : option number)
    (active : option bool) : t :=
  let max := default (Num.of_Z 0) max in
  let tokens := default max tokens in
  let active := default false active in
  mk max tokens active.

Definition is_active : State t bool := gets active.

Definition set_size (size : number) : State t unit :=
  modify (fun b => mk size (tokens b) (active b)).

Definition take (pre : bool) : State t bool :=
  (exec modify (fun b => mk (max b) (tokens b) true) in
   let* tokens := gets tokens in
   if (tokens <= Num.of_Z 0)%num then ret false
   else
     exec (if negb pre
           then modify (fun b =>
                  mk (max b) (Bucket.tokens b - Num.of_Z 1)%num (active b))
           else ret tt) in
     ret true)%state.

Definition fill (num : number) : State t unit :=
  modify (fun b =>
    mk (max b) (tokens b + Num.min (max b - tokens b) num)%num (active b)).

End Bucket.

(** ** [class Configuration] *)

Module Configuration.

Record t : Type := mk {
  requests : option number;     (* number of requests a client can do *)
  per_seconds : option number;  (* time window in seconds *)
  behavior : value              (* rate-limit behavior, as found at run time *)
}.

(** A default parameter takes its default when the argument is
    [undefined], and only then. *)
Definition param (dflt arg : value) : value :=
  match arg with
  | undefined => dflt
  | _ => arg
  end.

(** [constructor(requests = null, per_seconds = null,
                 behavior = DEFAULT_BEHAVIOR)] *)
Definition constructor (requests per_seconds behavior : value) : t :=
  let requests := param null requests in
  let per_seconds := param null per_seconds in
  let behavior := param DEFAULT_BEHAVIOR behavior in
  mk (or_null (Number requests)) (or_null (Number per_seconds)) behavior.

End Configuration.

(** ** Requests, responses and the durable storage *)

(** The object [JSON.parse] yields for the text of the [_configuration]
    header: its three properties, [undefined] where the key is absent. *)
Record parsed : Type := Parsed {
  parsed_requests : value;
  parsed_per_seconds : value;
  parsed_behavior : value
}.

(** A request, as far as [Counter] reads it: [None] when the header is
    absent or empty, so that [headers.get(...) || null] is [null]. *)
Record Request : Type := { _configuration : option parsed }.

Record Response : Type := { status : Z }.

(** What [storage.put] keeps under a key. *)
Inductive stored : Type :=
| stored_number (n : number)
| stored_bucket (b : Bucket.t).

(** ** [class Counter] *)

Module Counter.

Record t : Type := mk {
  storage : gmap string stored;  (* this.state.storage *)
  last : number;  (* timestamp of the last request that was not limited *)
  bucket : Bucket.t
}.

(** The body of [blockConcurrencyWhile] in the constructor. *)
Definition constructor (storage : gmap string stored) : t :=
  let last :=
    match storage !! "last"%string with
    | Some (stored_number n) => if Num.truthy n then n else Num.of_Z 0
    | _ => Num.of_Z 0
    end in
  let bucket :=
    match storage !! "tokens"%string with
    | Some (stored_bucket b) =>
        Bucket.constructor (Some (Bucket.max b)) (Some (Bucket.tokens b))
          (Some (Bucket.active b))
    | _ => Bucket.constructor None None None
    end in
  mk storage last bucket.

(** Runs a method of [this.bucket]. *)
Definition on_bucket {A} (m : State Bucket.t A) : State t A :=
  fun c => let '(a, b) := m (bucket c) in (a, mk (storage c) (last c) b).

(** [current_time()], given the reading [now] of the clock. *)
Definition current_time (now : number) : number := Num.trunc now.

Definition configuration (request : Request) : Configuration.t :=
  match _configuration request with
  | None => Configuration.constructor undefined undefined undefined
  | Some parse =>
      Configuration.constructor (parsed_requests parse)
        (parsed_per_seconds parse) (parsed_behavior parse)
  end.

Definition fill_amount (tokens : number) (seconds : option number)
    (time : number) : State t number :=
  match seconds with
  | None => ret (Num.of_Z 0)
  | Some seconds =>
      (let tpsf := (tokens / seconds)%num in
       let* last := gets last in
       let passed := Num.floor ((time - last) / Num.of_Z 1000)%num in
       ret (Num.floor (tpsf * passed)%num))%state
  end.

Definition should_block (time : number) (configuration : Configuration.t)
  : State t bool :=
  if not_Blocking (Configuration.behavior configuration) then ret false
  else
    match Configuration.per_seconds configuration with
    | None => ret false
    | Some per_seconds =>
        (let* available := on_bucket (Bucket.take true) in
         if available then ret false
         else
           let* last := gets last in
           ret (Num.floor ((time - last) / Num.of_Z 1000) < per_seconds)%num
        )%state
    end.

Definition persist : State t unit :=
  modify (fun c =>
    mk (<["tokens"%string := stored_bucket (bucket c)]>
          (<["last"%string := stored_number (last c)]> (storage c)))
       (last c) (bucket c)).

Definition respond (success : bool) (time : number) : State t Response :=
  (let status := if success then 200 else 429 in
   exec (if success
         then modify (fun c => mk (storage c) time (bucket c))
         else ret tt) in
   exec persist in
   ret {| status := status |})%state.

Definition fetch (now : number) (request : Request) : State t Response :=
  (let time := current_time now in
   let configuration := configuration request in
   match Configuration.requests configuration with
   | None => respond true time
   | Some requests =>
       exec on_bucket (Bucket.set_size requests) in
       let* is_active := on_bucket Bucket.is_active in
       let* fill_amount :=
         (if negb is_active then ret requests
          else fill_amount requests
                 (Configuration.per_seconds configuration) time) in
       let* block := should_block time configuration in
       exec (if negb block then on_bucket (Bucket.fill fill_amount)
             else ret tt) in
       let* taken := on_bucket (Bucket.take false) in
       if taken then respond true time else respond false time
   end)%state.

End Counter.

(** ** The Worker in front of the engine *)

Module Worker.

(** A header read with [headers.get]: a string, or [null] when absent. *)
Definition header (h : option string) : value :=
  match h with
  | Some s => str s
  | None => null
  end.

(** [default(request)], on the three headers it reads. *)
Definition default (cf_connecting_ip _requests _per_seconds : option string)
  : string * Configuration.t :=
  let ident :=
    match cf_connecting_ip with
    | Some (String c s) => String c s
    | _ => "127.0.0.1"%string
    end in
  let configuration :=
    Configuration.constructor (header _requests) (header _per_seconds)
      (num Behavior.Blocking) in
  (ident, configuration).

(** What [JSON.parse] reads back from the text [JSON.stringify] writes for
    a property: a number that is not finite is written as [null], a
    property that is [undefined] is left out. *)
Definition json (v : value) : value :=
  match v with
  | num (Fin q) => num (Fin q)
  | num _ => null
  | _ => v
  end.

Definition json_field (field : option number) : value :=
  match field with
  | Some n => json (num n)
  | None => null
  end.

(** The request [rate_exceeded] sends to the Durable Object. *)
Definition request_for (configuration : Configuration.t) : Request :=
  {| _configuration :=
       Some (Parsed (json_field (Configuration.requests configuration))
               (json_field (Configuration.per_seconds configuration))
               (json (Configuration.behavior configuration))) |}.

(** [rate_exceeded(ident, configuration, request, env)], on the Durable
    Object of [ident]. *)
Definition rate_exceeded (configuration : Configuration.t) (now : number)
  : State Counter.t bool :=
  (let* response := Counter.fetch now (request_for configuration) in
   ret (status response =? 429))%state.

End Worker.

(** ** Sequences of requests *)

(** The engine of one identifier handles its requests one at a time; each
    entry is the clock reading and the request. *)
Fixpoint serve (c : Counter.t) (rs : list (number * Request))
  : list Response * Counter.t :=
  match rs with
  | [] => ([], c)
  | (now, r) :: rs' =>
      let '(resp, c') := Counter.fetch now r c in
      let '(resps, c'') := serve c' rs' in
      (resp :: resps, c'')
  end.

(** The state of an identifier that was never seen. *)
Definition initial : Counter.t := Counter.constructor ∅.

(** The request that carries [new Configuration(requests, per_seconds,
    behavior)] in its header. *)
Definition request_of (requests per_seconds behavior : number) : Request :=
  {| _configuration :=
       Some (Parsed (num requests) (num per_seconds) (num behavior)) |}.

Definition statuses (rs : list Response) : list Z := map status rs.

(** ** Notions used in the statements *)

(** The state [persist] leaves: both entries of the storage hold the
    current fields. *)
Definition persisted (c : Counter.t) : Counter.t :=
  snd (Counter.persist c).

(** The verdict a non-consuming [take] gives on the bucket of [c]. *)
Definition peek (c : Counter.t) : bool :=
  fst (Bucket.take true (Counter.bucket c)).

(** [null], or a number [n] with [0 <= n] (which [NaN] does not satisfy). *)
Definition null_or_non_negative (field : option number) : bool :=
  match field with
  | None => true
  | Some n => (Num.of_Z 0 <= n)%num
  end.

(** [null], or a number that is neither [NaN] nor zero. *)
Definition null_or_nonzero (field : option number) : bool :=
  match field with
  | None => true
  | Some NaN => false
  | Some (Infinity _) => true
  | Some (Fin q) => negb (Qeq_bool q 0)
  end.

(** The next four definitions describe a request with a limit in closed
    form; [fetch_limited] below proves that [fetch] computes exactly this. *)

(** The whole seconds between [last] and [time]. *)
Definition passed (time last : number) : number :=
  Num.floor ((time - last) / Num.of_Z 1000)%num.

(** The amount [fetch] computes for [fill]. *)
Definition refill (requests : number) (per_seconds : option number)
    (time last : number) (active : bool) : number :=
  if active then
    match per_seconds with
    | None => Num.of_Z 0
    | Some s => Num.floor ((requests / s) * passed time last)%num
    end
  else requests.

(** The verdict of [should_block] when the bucket holds [tokens]. *)
Definition held (configuration : Configuration.t) (time last tokens : number)
  : bool :=
  negb (not_Blocking (Configuration.behavior configuration)) &&
  match Configuration.per_seconds configuration with
  | None => false
  | Some s => (tokens <= Num.of_Z 0)%num && (passed time last < s)%num
  end.

(** The tokens in the bucket when the consuming [take] runs. *)
Definition tokens_before_take (configuration : Configuration.t)
    (requests time : number) (c : Counter.t) : number :=
  let tokens := Bucket.tokens (Counter.bucket c) in
  if held configuration time (Counter.last c) tokens then tokens
  else (tokens + Num.min (requests - tokens)
                   (refill requests (Configuration.per_seconds configuration)
                      time (Counter.last c)
                      (Bucket.active (Counter.bucket c))))%num.

(** The state after the twenty tokens of a fresh bucket were taken at
    time 5000. *)
Definition exhausted_at_5000 : Counter.t :=
  snd (serve initial
         (repeat (Num.of_Z 5000, request_of 20 10 Behavior.Throttling) 20)).


(** Requests with the integer reading of the clock at their arrival. *)
Definition clocked (rs : list (Z * Request)) : list (number * Request) :=
  map (fun tr => (Num.of_Z (fst tr), snd tr)) rs.

(** The timestamps never go back, starting from [from]. *)
Fixpoint chronological (from : Z) (ts : list Z) : bool :=
  match ts with
  | [] => true
  | t :: ts' => (from <=? t) && chronological t ts'
  end.

Definition positive (n : number) : bool :=
  match n with
  | Fin q => Num.Qltb 0 q
  | _ => false
  end.

Definition positive_integer (n : number) : bool :=
  match n with
  | Fin q => Num.Qltb 0 q && Qeq_bool (inject_Z (Qfloor q)) q
  | _ => false
  end.

(** A configuration of the documented shape: [requests] is null or a
    positive integer, [per_seconds] is null or a positive number. *)
Definition well_formed (configuration : Configuration.t) : bool :=
  match Configuration.requests configuration with
  | None => true
  | Some r => positive_integer r
  end &&
  match Configuration.per_seconds configuration with
  | None => true
  | Some s => positive s
  end.

(** The invariant of the engine under well-formed configurations: the
    tokens are a non-negative integer below the capacity, and [last] is an
    integer timestamp not after [now]. *)
Definition sound (now : Z) (c : Counter.t) : Prop :=
  exists (z l : Z) (tk mx : Q),
    Bucket.tokens (Counter.bucket c) = Fin tk /\
    Bucket.max (Counter.bucket c) = Fin mx /\
    Counter.last c = Num.of_Z l /\
    (tk == inject_Z z)%Q /\ 0 <= z /\ (tk <= mx)%Q /\ l <= now.

(** A quota that shrinks from 10 to 5 between two requests, then an
    unlimited request, then a throttled one. *)
Definition shrinking_quota : list (Z * Request) :=
  [ (1700000000000, request_of 10 10 Behavior.Blocking);
    (1700000000000, request_of 5 10 Behavior.Blocking);
    (1700000001500, {| _configuration := None |});
    (1700000003000, request_of 5 2 Behavior.Throttling) ].


(** A field as it arrives in the Durable Object: a number that is not
    finite does not survive the header. *)
Definition finite_only (field : option number) : option number :=
  match field with
  | Some (Fin q) => Some (Fin q)
  | _ => None
  end.

(** A request with a quota and no window:
    [new Configuration(requests, null, behavior)]. *)
Definition fixed_quota (requests : Z) (behavior : value) : Request :=
  {| _configuration := Some (Parsed (num (Num.of_Z requests)) null behavior) |}.

(** The same request at each reading of the clock. *)
Definition at_times (request : Request) (nows : list number)
  : list (number * Request) :=
  map (fun now => (now, request)) nows.

(** Whether an empty bucket is held, [p] whole seconds after [last]. *)
Definition hold (per_seconds : Z) (behavior : number) (p : Z) : bool :=
  negb (not_Blocking (num behavior)) && (p <? per_seconds).

(** The number of tokens an empty bucket offers, [p] whole seconds after
    [last]: none while it is held, else the refill, capped by the quota. *)
Definition offered (requests per_seconds : Z) (behavior : number) (p : Z)
  : Z :=
  if hold per_seconds behavior p then 0
  else Z.min requests (requests * p / per_seconds).

(** ** Safe integers *)

(** [Number.MAX_SAFE_INTEGER].  The integers up to it in magnitude are
    numbers of the binary64 format, and a sum or a difference of two of
    them that stays in this range is computed without rounding.  The
    statements that depend on the value of an arithmetic result are made
    for such integers: there the embedding, whose finite arithmetic is
    exact, computes what the program computes, or the rounding of the
    program cannot change the conclusion. *)
Definition MAX_SAFE_INTEGER : Z := 2 ^ 53 - 1.







(** The statements of [fetch] between the test of [requests] and the
    consuming [take]: the bucket is sized, the amount is computed, and the
    bucket is filled unless [should_block] holds the request. *)
Definition prepare (time : number) (configuration : Configuration.t)
    (requests : number) : State Counter.t unit :=
  (exec Counter.on_bucket (Bucket.set_size requests) in
   let* is_active := Counter.on_bucket Bucket.is_active in
   let* fill_amount :=
     (if negb is_active then ret requests
      else Counter.fill_amount requests
             (Configuration.per_seconds configuration) time) in
   let* block := Counter.should_block time configuration in
   if negb block then Counter.on_bucket (Bucket.fill fill_amount)
   else ret tt)%state.

(** * Properties *)

(** ** The model on examples *)

Example Number_10 : Number (str "10") = Num.of_Z 10. Proof. reflexivity. Qed.
Example Number_ws : Number (str "  42 ") = Num.of_Z 42. Proof. reflexivity. Qed.
Example Number_neg : Number (str "-5") = Fin (-5 # 1). Proof. reflexivity. Qed.
Example Number_frac : Number (str "1.5e1") = Num.of_Z 15. Proof. reflexivity. Qed.
Example Number_half : Number (str ".5") = Fin (1 # 2). Proof. reflexivity. Qed.
Example Number_hex : Number (str "0x1f") = Num.of_Z 31. Proof. reflexivity. Qed.
Example Number_empty : Number (str "") = Num.of_Z 0. Proof. reflexivity. Qed.
Example Number_abc : Number (str "abc") = NaN. Proof. reflexivity. Qed.
Example Number_10x : Number (str "10 requests") = NaN. Proof. reflexivity. Qed.
Example Number_dot : Number (str ".") = NaN. Proof. reflexivity. Qed.
Example Number_inf : Number (str "-Infinity") = Infinity true. Proof. reflexivity. Qed.
Example Number_arr : Number (object "") = Num.of_Z 0. Proof. reflexivity. Qed.
Example Number_obj : Number (object "[object Object]") = NaN. Proof. reflexivity. Qed.

Example initial_state :
  Counter.last initial = Num.of_Z 0 /\
  Counter.bucket initial = Bucket.mk (Num.of_Z 0) (Num.of_Z 0) false.
Proof. split; reflexivity. Qed.

Example hard_blocking_at_20000 :
  statuses (fst (serve initial
    (repeat (Num.of_Z 20000, request_of 10 10 Behavior.Blocking) 11)))
  = repeat 200 10 ++ [429].
Proof. vm_compute. reflexivity. Qed.

(** The request the Worker sends for the headers [_requests: 10] and
    [_per_seconds: 10] is the one written [request_of 10 10 Blocking]. *)
Example default_request :
  Worker.request_for (snd (Worker.default None (Some "10") (Some "10")))
  = request_of 10 10 Behavior.Blocking.
Proof. reflexivity. Qed.

Example default_negative_request :
  Worker.request_for (snd (Worker.default None (Some "-1") None))
  = {| _configuration :=
         Some (Parsed (num (Fin (-1))) null (num Behavior.Blocking)) |}.
Proof. reflexivity. Qed.

Example rate_exceeded_eleventh :
  let c := snd (serve initial
    (repeat (Num.of_Z 20000, request_of 10 10 Behavior.Blocking) 10)) in
  fst (Worker.rate_exceeded
         (snd (Worker.default None (Some "10") (Some "10")))
         (Num.of_Z 20000) c) = true.
Proof. vm_compute. reflexivity. Qed.

(** ** Comparisons of finite numbers *)

Lemma Qltb_lt (x y : Q) : Num.Qltb x y = true <-> (x < y)%Q.
Proof.
  unfold Num.Qltb. rewrite negb_true_iff, <- not_true_iff_false, Qle_bool_iff.
  split; [apply Qnot_le_lt | apply Qlt_not_le].
Qed.

Lemma Qltb_ge (x y : Q) : Num.Qltb x y = false <-> (y <= x)%Q.
Proof.
  unfold Num.Qltb. rewrite negb_false_iff. apply Qle_bool_iff.
Qed.

Lemma Qle_bool_gt (x y : Q) : Qle_bool x y = false <-> (y < x)%Q.
Proof.
  rewrite <- not_true_iff_false, Qle_bool_iff.
  split; [apply Qnot_le_lt | apply Qlt_not_le].
Qed.

Lemma is_zero_true (x : Q) : Num.is_zero x = true <-> (x == 0)%Q.
Proof. apply Qeq_bool_iff. Qed.

Lemma is_zero_false (x : Q) : Num.is_zero x = false <-> ~ (x == 0)%Q.
Proof.
  unfold Num.is_zero. rewrite <- not_true_iff_false, Qeq_bool_iff. tauto.
Qed.

(** ** The methods, one step at a time *)

Ltac run_state :=
  unfold Counter.respond, Counter.persist, Counter.on_bucket,
    Bucket.take, Bucket.fill, Bucket.set_size, Bucket.is_active,
    bind, ret, gets, modify; cbn [fst snd Bucket.max Bucket.tokens
    Bucket.active Counter.storage Counter.last Counter.bucket negb].

#[local] Arguments Num.add : simpl never.
#[local] Arguments Num.sub : simpl never.
#[local] Arguments Num.mul : simpl never.
#[local] Arguments Num.div : simpl never.
#[local] Arguments Num.le : simpl never.
#[local] Arguments Num.lt : simpl never.
#[local] Arguments Num.min : simpl never.
#[local] Arguments Num.floor : simpl never.
#[local] Arguments Num.trunc : simpl never.
#[local] Arguments Num.of_Z : simpl never.

Lemma persisted_lookup (c : Counter.t) :
  Counter.storage (persisted c) !! "last"%string
    = Some (stored_number (Counter.last c)) /\
  Counter.storage (persisted c) !! "tokens"%string
    = Some (stored_bucket (Counter.bucket c)) /\
  Counter.last (persisted c) = Counter.last c /\
  Counter.bucket (persisted c) = Counter.bucket c.
Proof.
  unfold persisted, Counter.persist, modify. cbn. repeat split.
  - rewrite lookup_insert_ne by discriminate. apply lookup_insert_eq.
  - apply lookup_insert_eq.
Qed.

Lemma respond_true (time : number) (c : Counter.t) :
  Counter.respond true time c =
    ({| status := 200 |},
     persisted (Counter.mk (Counter.storage c) time (Counter.bucket c))).
Proof. reflexivity. Qed.

Lemma respond_false (time : number) (c : Counter.t) :
  Counter.respond false time c = ({| status := 429 |}, persisted c).
Proof. destruct c. reflexivity. Qed.

(** ** C3: when [should_block] holds a request *)

(** C3. For every request time, configuration and engine state,
    [should_block] returns true exactly when the behavior is Blocking,
    [per_seconds] is not null, a non-consuming take finds no token, and the
    whole seconds since [last] are fewer than [per_seconds]; otherwise it
    returns false. *)
Theorem should_block_iff (time : number) (configuration : Configuration.t)
    (c : Counter.t) :
  fst (Counter.should_block time configuration c) = true <->
  not_Blocking (Configuration.behavior configuration) = false /\
  exists per_seconds,
    Configuration.per_seconds configuration = Some per_seconds /\
    peek c = false /\
    (Num.floor ((time - Counter.last c) / Num.of_Z 1000) < per_seconds)%num
      = true.
Proof.
  unfold Counter.should_block, peek.
  destruct (not_Blocking (Configuration.behavior configuration)).
  - cbn. split; [discriminate | intros [H _]; discriminate].
  - destruct (Configuration.per_seconds configuration) as [s|].
    + run_state.
      destruct (Bucket.tokens (Counter.bucket c) <= Num.of_Z 0)%num; cbn.
      * split.
        -- intros H. split; [reflexivity|]. exists s. auto.
        -- intros [_ [s' [E [_ H]]]]. injection E as <-. exact H.
      * split; [discriminate|].
        intros [_ [s' [_ [H _]]]]. discriminate.
    + cbn. split; [discriminate|].
      intros [_ [s' [E _]]]. discriminate.
Qed.

(** ** C5: no limit configured *)

(** C5. When the configuration has [requests = null], whatever the prior
    state, the request is allowed, [last] becomes the current time, both
    entries of the storage are written, and the bucket is left as it was;
    the response and the new [last] do not depend on the bucket. *)
Theorem unlimited_pass_through (now : number) (request : Request)
    (c : Counter.t) :
  Configuration.requests (Counter.configuration request) = None ->
  let (response, c') := Counter.fetch now request c in
  status response = 200 /\
  Counter.last c' = Counter.current_time now /\
  Counter.bucket c' = Counter.bucket c /\
  Counter.storage c' !! "last"%string
    = Some (stored_number (Counter.current_time now)) /\
  Counter.storage c' !! "tokens"%string
    = Some (stored_bucket (Counter.bucket c)) /\
  forall b : Bucket.t,
    let (response_b, c_b) :=
      Counter.fetch now request
        (Counter.mk (Counter.storage c) (Counter.last c) b) in
    response_b = response /\ Counter.last c_b = Counter.last c'.
Proof.
  intros H. unfold Counter.fetch. rewrite H, !respond_true.
  cbn [Counter.storage Counter.last Counter.bucket].
  set (c1 := Counter.mk _ _ _).
  destruct (persisted_lookup c1) as (Hl & Ht & Hl' & Hb).
  repeat split; auto.
Qed.

Lemma unlimited_pass_through_witness :
  let request := {| _configuration := Some (Parsed (str "0") (num 10) null) |} in
  let c := Counter.mk ∅ (Num.of_Z 5) (Bucket.mk (Num.of_Z 3) (Num.of_Z 0) true) in
  Configuration.requests (Counter.configuration request) = None /\
  status (fst (Counter.fetch (Num.of_Z 7000) request c)) = 200.
Proof.
  split; [reflexivity|].
  pose proof (unlimited_pass_through (Num.of_Z 7000)
    {| _configuration := Some (Parsed (str "0") (num 10) null) |}
    (Counter.mk ∅ (Num.of_Z 5) (Bucket.mk (Num.of_Z 3) (Num.of_Z 0) true))
    eq_refl) as H.
  destruct (Counter.fetch _ _ _) as [response c']. apply H.
Defined.

(** ** C8: the verdict follows the take *)

Lemma fetch_prepare (now : number) (request : Request) (c : Counter.t)
    (requests : number) :
  Configuration.requests (Counter.configuration request) = Some requests ->
  let time := Counter.current_time now in
  let c1 := snd (prepare time (Counter.configuration request) requests c) in
  Counter.fetch now request c =
    let '(taken, b') := Bucket.take false (Counter.bucket c1) in
    Counter.respond taken time
      (Counter.mk (Counter.storage c1) (Counter.last c1) b').
Proof.
  intros H time c1. subst c1. unfold Counter.fetch, prepare.
  fold time. rewrite H.
  set (cfg := Counter.configuration request).
  unfold Counter.should_block, Counter.fill_amount.
  destruct c as [st l [mx tk act]].
  destruct (not_Blocking (Configuration.behavior cfg));
    destruct (Configuration.per_seconds cfg) as [s|];
    destruct act; run_state; cbn;
    try (destruct (tk <= Num.of_Z 0)%num eqn:E; cbn; try rewrite E);
    repeat match goal with
    | |- context [if ?b then _ else _] => destruct b eqn:?; cbn
    end; try reflexivity; cbn in *; congruence.
Qed.

Lemma prepare_frame (time : number) (configuration : Configuration.t)
    (requests : number) (c : Counter.t) :
  let c1 := snd (prepare time configuration requests c) in
  Counter.last c1 = Counter.last c /\
  Counter.storage c1 = Counter.storage c /\
  Bucket.max (Counter.bucket c1) = requests.
Proof.
  unfold prepare, Counter.should_block, Counter.fill_amount.
  destruct c as [st l [mx tk act]].
  destruct (not_Blocking (Configuration.behavior configuration));
    destruct (Configuration.per_seconds configuration) as [s|];
    destruct act; run_state; cbn;
    try (destruct (tk <= Num.of_Z 0)%num eqn:E; cbn; try rewrite E);
    repeat match goal with
    | |- context [if ?b then _ else _] => destruct b eqn:?; cbn
    end; auto.
Qed.

(** C8. When the configuration has a non-null [requests], the request ends
    with a consuming [take] on the bucket that [fetch] has prepared (sized,
    and filled unless [should_block] held the request): if that take
    succeeds the verdict is Allow and [last] becomes the current time, if it
    fails the verdict is Deny and [last] keeps its value; in both cases the
    bucket the take leaves and [last] are written to the storage. *)
Theorem verdict_follows_take (now : number) (request : Request)
    (c : Counter.t) (requests : number) :
  Configuration.requests (Counter.configuration request) = Some requests ->
  let time := Counter.current_time now in
  let prepared :=
    Counter.bucket
      (snd (prepare time (Counter.configuration request) requests c)) in
  let (taken, b') := Bucket.take false prepared in
  let (response, c') := Counter.fetch now request c in
  Bucket.max prepared = requests /\
  status response = (if taken then 200 else 429) /\
  Counter.last c' = (if taken then time else Counter.last c) /\
  Counter.bucket c' = b' /\
  Counter.storage c' =
    <["tokens"%string := stored_bucket b']>
      (<["last"%string := stored_number (Counter.last c')]>
         (Counter.storage c)).
Proof.
  intros H time prepared. subst prepared.
  rewrite (fetch_prepare now request c requests H). fold time.
  destruct (prepare_frame time (Counter.configuration request) requests c)
    as (Hl & Hs & Hm).
  set (c1 := snd (prepare time (Counter.configuration request) requests c))
    in *.
  destruct (Bucket.take false (Counter.bucket c1)) as [taken b'].
  destruct taken.
  - rewrite respond_true. cbn. rewrite Hs. auto.
  - rewrite respond_false. cbn. rewrite Hl, Hs. auto.
Qed.

Lemma verdict_follows_take_witness :
  let time := Counter.current_time (Num.of_Z 20000) in
  let prepared :=
    Counter.bucket
      (snd (prepare time
              (Counter.configuration (request_of 10 10 Behavior.Blocking))
              (Num.of_Z 10) initial)) in
  let (taken, b') := Bucket.take false prepared in
  let (response, c') :=
    Counter.fetch (Num.of_Z 20000)
      (request_of 10 10 Behavior.Blocking) initial in
  Bucket.max prepared = Num.of_Z 10 /\
  status response = (if taken then 200 else 429) /\
  Counter.last c' = (if taken then time else Counter.last initial) /\
  Counter.bucket c' = b' /\
  Counter.storage c' =
    <["tokens"%string := stored_bucket b']>
      (<["last"%string := stored_number (Counter.last c')]>
         (Counter.storage initial)).
Proof.
  apply (verdict_follows_take (Num.of_Z 20000)
           (request_of 10 10 Behavior.Blocking) initial (Num.of_Z 10)).
  reflexivity.
Defined.

(** The verdict does follow the tokens: a prepared bucket without a token
    is denied, and the state is persisted all the same. *)
Example denied_when_prepared_empty :
  let c := Counter.mk ∅ (Num.of_Z 20000)
             (Bucket.mk (Num.of_Z 10) (Num.of_Z 0) true) in
  let request := request_of 10 10 Behavior.Throttling in
  Bucket.tokens
    (Counter.bucket
       (snd (prepare (Num.of_Z 20500) (Counter.configuration request)
               (Num.of_Z 10) c))) = Num.of_Z 0 /\
  status (fst (Counter.fetch (Num.of_Z 20500) request c)) = 429.
Proof. vm_compute. split; reflexivity. Qed.

(** ** C9: a behavior that is not [Blocking] *)

(** C9. The constructor keeps the behavior it is given, whatever it is; and
    for every configuration whose behavior is not strictly equal to
    [Behavior.Blocking], [should_block] returns false without touching the
    state, so that the request is served exactly as under
    [Behavior.Throttling]. *)
Theorem unvalidated_behavior_throttles (now : number) (p : parsed)
    (c : Counter.t) :
  let request := {| _configuration := Some p |} in
  let configuration := Counter.configuration request in
  not_Blocking (Configuration.behavior configuration) = true ->
  Configuration.behavior configuration = parsed_behavior p /\
  Counter.should_block (Counter.current_time now) configuration c
    = (false, c) /\
  Counter.fetch now request c =
    Counter.fetch now
      {| _configuration :=
           Some (Parsed (parsed_requests p) (parsed_per_seconds p)
                   (num Behavior.Throttling)) |} c.
Proof.
  intros request configuration H.
  assert (Hb : Configuration.behavior configuration = parsed_behavior p).
  { subst configuration request. revert H. cbn.
    destruct (parsed_behavior p); cbn; auto; discriminate. }
  split; [exact Hb|]. split.
  - unfold Counter.should_block. rewrite H. reflexivity.
  - unfold Counter.fetch. fold configuration.
    set (thr := Counter.configuration {| _configuration := Some (Parsed _ _ _) |}).
    assert (Hr : Configuration.requests thr
                 = Configuration.requests configuration) by reflexivity.
    assert (Hp : Configuration.per_seconds thr
                 = Configuration.per_seconds configuration) by reflexivity.
    rewrite Hr, Hp.
    destruct (Configuration.requests configuration); [|reflexivity].
    unfold Counter.should_block. rewrite H.
    replace (not_Blocking (Configuration.behavior thr)) with true
      by reflexivity.
    reflexivity.
Qed.

Lemma unvalidated_behavior_throttles_witness :
  let p := Parsed (num (Num.of_Z 20)) (num (Num.of_Z 10)) (num (Num.of_Z 7)) in
  let c := Counter.mk ∅ (Num.of_Z 1000)
             (Bucket.mk (Num.of_Z 20) (Num.of_Z 0) true) in
  not_Blocking
    (Configuration.behavior
       (Counter.configuration {| _configuration := Some p |})) = true /\
  Counter.should_block (Counter.current_time (Num.of_Z 2000))
    (Counter.configuration {| _configuration := Some p |}) c = (false, c).
Proof.
  split; [reflexivity|].
  apply (unvalidated_behavior_throttles (Num.of_Z 2000)
    (Parsed (num (Num.of_Z 20)) (num (Num.of_Z 10)) (num (Num.of_Z 7)))
    (Counter.mk ∅ (Num.of_Z 1000)
       (Bucket.mk (Num.of_Z 20) (Num.of_Z 0) true))).
  reflexivity.
Defined.

Example behavior_outside_enum_refills :
  statuses (fst (serve
    (Counter.mk ∅ (Num.of_Z 1000) (Bucket.mk (Num.of_Z 20) (Num.of_Z 0) true))
    (repeat (Num.of_Z 2000,
             {| _configuration :=
                  Some (Parsed (num (Num.of_Z 20)) (num (Num.of_Z 10))
                          (str "Blocking")) |}) 3)))
  = [200; 200; 429].
Proof. vm_compute. reflexivity. Qed.

(** ** C4 and C7: what the constructor of [Configuration] keeps *)

(** C4. The literal [0], and likewise any input that [Number] cannot read
    as a number, is normalised to [null] (no limit), never to a quota of
    zero; this holds for [requests] and for [per_seconds]. *)
Theorem zero_and_unparseable_are_null (v other behavior : value) :
  v = num (Num.of_Z 0) \/ Number v = NaN ->
  Configuration.requests (Configuration.constructor v other behavior)
    = None /\
  Configuration.per_seconds (Configuration.constructor other v behavior)
    = None.
Proof.
  intros [-> | H]; [split; reflexivity|].
  unfold Configuration.constructor. cbn.
  destruct v; cbn in *; try rewrite H; auto.
Qed.

Lemma zero_and_unparseable_are_null_witness :
  Number (str "ten") = NaN /\
  Configuration.requests
    (Configuration.constructor (str "ten") (str "10") undefined) = None /\
  Configuration.per_seconds
    (Configuration.constructor (str "10") (str "ten") undefined) = None.
Proof.
  split; [reflexivity|].
  apply (zero_and_unparseable_are_null (str "ten") (str "10") undefined).
  right. reflexivity.
Defined.

Example zero_text_is_null :
  Configuration.constructor (str "0") (str "0") undefined
  = Configuration.mk None None DEFAULT_BEHAVIOR.
Proof. reflexivity. Qed.

Example header_values_are_read :
  Configuration.constructor (str "10") (str "10") (num Behavior.Blocking)
  = Configuration.mk (Some (Num.of_Z 10)) (Some (Num.of_Z 10))
      (num Behavior.Blocking).
Proof. reflexivity. Qed.

(** C7, as stated, fails: the text [-5] is kept as the number -5. *)
Lemma negative_requests_are_kept :
  ~ (forall requests per_seconds behavior : value,
       let configuration :=
         Configuration.constructor requests per_seconds behavior in
       null_or_non_negative (Configuration.requests configuration) = true /\
       null_or_non_negative (Configuration.per_seconds configuration) = true).
Proof.
  intros H. destruct (H (str "-5") (str "10") undefined) as [H1 _].
  vm_compute in H1. discriminate.
Qed.

(** C7, amended. For every raw input, [requests] and [per_seconds] are each
    either [null] or a number that is neither [NaN] nor zero; the number may
    be negative. *)
Theorem fields_are_null_or_nonzero (requests per_seconds behavior : value) :
  let configuration :=
    Configuration.constructor requests per_seconds behavior in
  null_or_nonzero (Configuration.requests configuration) = true /\
  null_or_nonzero (Configuration.per_seconds configuration) = true.
Proof.
  assert (H : forall n, null_or_nonzero (or_null n) = true).
  { intros [| s | q]; cbn; auto.
    unfold or_null, Num.truthy, Num.is_zero.
    destruct (Qeq_bool q 0) eqn:E; cbn; auto. rewrite E. reflexivity. }
  cbn. split; apply H.
Qed.

(** ** A request with a limit, in closed form *)

Lemma fetch_limited (now : number) (request : Request) (c : Counter.t)
    (requests : number) :
  let configuration := Counter.configuration request in
  let time := Counter.current_time now in
  Configuration.requests configuration = Some requests ->
  let tokens := tokens_before_take configuration requests time c in
  Counter.fetch now request c =
    if (tokens <= Num.of_Z 0)%num
    then ({| status := 429 |},
          persisted (Counter.mk (Counter.storage c) (Counter.last c)
                       (Bucket.mk requests tokens true)))
    else ({| status := 200 |},
          persisted (Counter.mk (Counter.storage c) time
                       (Bucket.mk requests (tokens - Num.of_Z 1)%num true))).
Proof.
  intros cfg time H tokens. subst tokens.
  unfold Counter.fetch, tokens_before_take, held, refill.
  fold cfg. fold time. rewrite H.
  unfold Counter.should_block, Counter.fill_amount, passed.
  destruct c as [st l [mx tk act]].
  cbn [Counter.storage Counter.last Counter.bucket Bucket.max Bucket.tokens
       Bucket.active].
  destruct (not_Blocking (Configuration.behavior cfg));
    destruct (Configuration.per_seconds cfg) as [s|];
    destruct act; run_state; cbn;
    try (destruct (tk <= Num.of_Z 0)%num eqn:E; cbn; try rewrite E);
    repeat match goal with
    | |- context [if ?b then _ else _] => destruct b eqn:?; cbn
    end; try reflexivity; cbn in *; congruence.
Qed.

Lemma fetch_step (now : number) (request : Request) (c : Counter.t)
    (requests : number) :
  let configuration := Counter.configuration request in
  let time := Counter.current_time now in
  Configuration.requests configuration = Some requests ->
  let tokens := tokens_before_take configuration requests time c in
  let empty := (tokens <= Num.of_Z 0)%num in
  let (response, c') := Counter.fetch now request c in
  status response = (if empty then 429 else 200) /\
  Counter.last c' = (if empty then Counter.last c else time) /\
  Counter.bucket c' =
    Bucket.mk requests
      (if empty then tokens else (tokens - Num.of_Z 1)%num) true.
Proof.
  intros cfg time H tokens empty.
  rewrite (fetch_limited now request c requests H).
  fold cfg time tokens empty. destruct empty; cbn; auto.
Qed.

Lemma statuses_serve_cons (c : Counter.t) (now : number) (r : Request)
    (rs : list (number * Request)) :
  statuses (fst (serve c ((now, r) :: rs))) =
    status (fst (Counter.fetch now r c))
    :: statuses (fst (serve (snd (Counter.fetch now r c)) rs)).
Proof.
  cbn [serve]. destruct (Counter.fetch now r c) as [resp c'].
  cbn [fst snd]. destruct (serve c' rs) as [resps c'']. reflexivity.
Qed.

Lemma state_serve_cons (c : Counter.t) (now : number) (r : Request)
    (rs : list (number * Request)) :
  snd (serve c ((now, r) :: rs)) =
    snd (serve (snd (Counter.fetch now r c)) rs).
Proof.
  cbn [serve]. destruct (Counter.fetch now r c) as [resp c'].
  cbn [fst snd]. destruct (serve c' rs) as [resps c'']. reflexivity.
Qed.

(** ** Arithmetic on finite numbers and integer timestamps *)


Lemma le_Fin_0 (x : Q) : (Fin x <= Num.of_Z 0)%num = Qle_bool x 0.
Proof. reflexivity. Qed.

Lemma min_Fin (x y : Q) :
  Num.min (Fin x) (Fin y) = Fin (if Qle_bool x y then x else y).
Proof. unfold Num.min, Num.le. destruct (Qle_bool x y); reflexivity. Qed.

Lemma div_Fin (x y : Q) :
  ~ (y == 0)%Q -> (Fin x / Fin y)%num = Fin (x / y).
Proof.
  intros H. unfold Num.div. apply is_zero_false in H. rewrite H. reflexivity.
Qed.

Lemma trunc_of_Z (t : Z) : Num.trunc (Num.of_Z t) = Num.of_Z t.
Proof.
  unfold Num.trunc, Num.of_Z. f_equal. f_equal.
  destruct (Num.is_neg (inject_Z t)).
  - apply Qceiling_Z.
  - apply Qfloor_Z.
Qed.

Lemma passed_of_Z (t l : Z) :
  passed (Num.of_Z t) (Num.of_Z l) = Num.of_Z ((t - l) / 1000).
Proof.
  unfold passed, Num.of_Z, Num.sub. rewrite div_Fin by discriminate.
  unfold Num.floor, Num.of_Z. f_equal. f_equal.
  rewrite <- (Qfloor_comp (inject_Z (t - l) / inject_Z 1000)).
  - unfold Qfloor, Qdiv, Qmult, Qinv, inject_Z. cbn.
    rewrite Z.mul_1_r. reflexivity.
  - unfold Z.sub. rewrite inject_Z_plus, inject_Z_opp. reflexivity.
Qed.

Lemma or_null_of_Z (z : Z) : z <> 0 -> or_null (Num.of_Z z) = Some (Num.of_Z z).
Proof.
  intros H. unfold or_null, Num.truthy, Num.of_Z.
  replace (Num.is_zero (inject_Z z)) with false; [reflexivity|].
  symmetry. apply is_zero_false. intros E. apply H.
  apply (inject_Z_injective z 0). exact E.
Qed.

Lemma configuration_request_of (r s : Z) (behavior : number) :
  r <> 0 -> s <> 0 ->
  Counter.configuration (request_of r s behavior) =
    Configuration.mk (Some (Num.of_Z r)) (Some (Num.of_Z s)) (num behavior).
Proof.
  intros Hr Hs. unfold Counter.configuration, request_of.
  cbn [_configuration parsed_requests parsed_per_seconds parsed_behavior].
  unfold Configuration.constructor. cbn [Configuration.param Number].
  rewrite !or_null_of_Z by assumption. reflexivity.
Qed.

Lemma lt_of_Z (x y : Z) : (Num.of_Z x < Num.of_Z y)%num = (x <? y).
Proof.
  unfold Num.lt, Num.of_Z. destruct (x <? y) eqn:E.
  - apply Qltb_lt. rewrite <- Zlt_Qlt. apply Z.ltb_lt, E.
  - apply Qltb_ge. rewrite <- Zle_Qle. apply Z.ltb_ge, E.
Qed.

Lemma floor_eq (x : Q) (z : Z) : (x == inject_Z z)%Q -> Num.floor (Fin x) = Num.of_Z z.
Proof.
  intros H. unfold Num.floor. f_equal.
  rewrite (Qfloor_comp _ _ H). apply Qfloor_Z.
Qed.

(** No whole second has passed: an active bucket is refilled by nothing. *)
Lemma refill_same_second (r s t l : Z) :
  s <> 0 -> (t - l) / 1000 = 0 ->
  refill (Num.of_Z r) (Some (Num.of_Z s)) (Num.of_Z t) (Num.of_Z l) true
    = Num.of_Z 0.
Proof.
  intros Hs H. unfold refill. rewrite passed_of_Z, H.
  unfold Num.of_Z at 1 2. rewrite div_Fin.
  - unfold Num.of_Z at 1. unfold Num.mul. apply floor_eq.
    unfold inject_Z. ring.
  - intros E. apply Hs. apply (inject_Z_injective s 0). exact E.
Qed.

(** In exact arithmetic: the refill of an active bucket after the whole
    seconds that passed. *)
Lemma refill_whole_seconds (r s t l : Z) :
  s <> 0 ->
  refill (Num.of_Z r) (Some (Num.of_Z s)) (Num.of_Z t) (Num.of_Z l) true
    = Num.of_Z (r * ((t - l) / 1000) / s).
Proof.
  intros Hs. unfold refill. rewrite passed_of_Z.
  set (p := (t - l) / 1000).
  assert (Hq : ~ (inject_Z s == 0)%Q).
  { intros E. apply Hs. apply (inject_Z_injective s 0). exact E. }
  unfold Num.of_Z at 1 2. rewrite div_Fin by exact Hq.
  unfold Num.of_Z at 1. unfold Num.mul, Num.floor. f_equal.
  rewrite Zdiv_Qdiv. apply Qfloor_comp.
  rewrite inject_Z_mult. field. exact Hq.
Qed.

(** ** Requests within the second of the last admitted one *)

Section SameSecond.

Variables requests per_seconds : Z.
Variable behavior : number.
Hypothesis requests_positive : 0 < requests.
Hypothesis per_seconds_positive : 0 < per_seconds.

Local Abbreviation request := (request_of requests per_seconds behavior).

Local Abbreviation configuration :=
  (Configuration.mk (Some (Num.of_Z requests)) (Some (Num.of_Z per_seconds))
     (num behavior)).

Lemma configuration_same_second : Counter.configuration request = configuration.
Proof. apply configuration_request_of; lia. Qed.

(** Within the second of the last admitted request, the bucket keeps the
    tokens it has: nothing is refilled, whether the request is held or not. *)
Lemma tokens_same_second (t l : Z) (c : Counter.t) (tk : Q) :
  (t - l) / 1000 = 0 ->
  Bucket.active (Counter.bucket c) = true ->
  Counter.last c = Num.of_Z l ->
  Bucket.tokens (Counter.bucket c) = Fin tk ->
  (tk <= inject_Z requests)%Q ->
  exists x, (x == tk)%Q /\
    tokens_before_take configuration (Num.of_Z requests) (Num.of_Z t) c
      = Fin x.
Proof.
  intros Ht Ha Hl Hk Hle. unfold tokens_before_take.
  rewrite Ha, Hl, Hk. destruct (held _ _ _ _).
  - exists tk. split; reflexivity.
  - cbn [Configuration.per_seconds].
    rewrite refill_same_second by (auto; lia).
    unfold Num.of_Z. unfold Num.sub. rewrite min_Fin. unfold Num.add.
    eexists. split; [|reflexivity].
    destruct (Qle_bool _ _) eqn:E.
    + apply Qle_bool_iff in E. change (inject_Z 0) with 0%Q in E. lra.
    + change (inject_Z 0) with 0%Q. ring.
Qed.

(** With [k] tokens left, [k] requests in the same millisecond are allowed
    and the next one is denied. *)
Lemma drain_same_second (t : Z) (k : nat) :
  forall (c : Counter.t) (tk : Q),
    Bucket.active (Counter.bucket c) = true ->
    Counter.last c = Num.of_Z t ->
    Bucket.tokens (Counter.bucket c) = Fin tk ->
    (tk == inject_Z (Z.of_nat k))%Q ->
    Z.of_nat k <= requests ->
    statuses (fst (serve c (repeat (Num.of_Z t, request) (S k))))
      = repeat 200 k ++ [429].
Proof.
  induction k as [|k IH]; intros c tk Ha Hl Hk Hq Hr;
    cbn [repeat]; rewrite statuses_serve_cons;
    pose proof (fetch_step (Num.of_Z t) request c (Num.of_Z requests)) as Hs;
    cbv zeta in Hs; rewrite configuration_same_second in Hs;
    specialize (Hs eq_refl);
    unfold Counter.current_time in Hs; rewrite trunc_of_Z in Hs;
    destruct (tokens_same_second t t c tk) as (x & Hx & Hb);
    auto; try (rewrite Z.sub_diag; reflexivity);
    try (rewrite Hq, <- Zle_Qle; exact Hr);
    rewrite Hb, le_Fin_0 in Hs;
    destruct (Counter.fetch (Num.of_Z t) request c) as [resp c'];
    destruct Hs as (Hst & Hl' & Hb'); cbn [fst snd].
  - replace (Qle_bool x 0) with true in *
      by (symmetry; apply Qle_bool_iff; rewrite Hx, Hq; apply Qle_refl).
    rewrite Hst. reflexivity.
  - replace (Qle_bool x 0) with false in *.
    + rewrite Hst. cbn [app]. f_equal.
      apply (IH c' (x - inject_Z 1)%Q).
      * rewrite Hb'. reflexivity.
      * exact Hl'.
      * rewrite Hb'. reflexivity.
      * rewrite Hx, Hq, Nat2Z.inj_succ. unfold Z.succ.
        rewrite inject_Z_plus. ring.
      * lia.
    + symmetry. apply Qle_bool_gt. rewrite Hx, Hq.
      change 0%Q with (inject_Z 0). rewrite <- Zlt_Qlt. lia.
Qed.

End SameSecond.

(** ** C1: hard blocking *)

(** The first request of a never-seen identifier, once the clock is a full
    window past the initial [last = 0]: the bucket is filled and one token
    is taken. *)
Lemma blocking_first_request (requests per_seconds t : Z) :
  0 < requests -> 0 < per_seconds -> per_seconds * 1000 <= t ->
  let (response, c') :=
    Counter.fetch (Num.of_Z t)
      (request_of requests per_seconds Behavior.Blocking) initial in
  status response = 200 /\
  Counter.last c' = Num.of_Z t /\
  Bucket.active (Counter.bucket c') = true /\
  exists x, Bucket.tokens (Counter.bucket c') = Fin x /\
            (x == inject_Z (requests - 1))%Q.
Proof.
  intros Hr Hs Ht.
  pose proof (fetch_step (Num.of_Z t)
                (request_of requests per_seconds Behavior.Blocking)
                initial (Num.of_Z requests)) as H.
  cbv zeta in H. rewrite configuration_request_of in H by lia.
  specialize (H eq_refl).
  unfold Counter.current_time in H. rewrite trunc_of_Z in H.
  assert (E : tokens_before_take
                (Configuration.mk (Some (Num.of_Z requests))
                   (Some (Num.of_Z per_seconds)) (num Behavior.Blocking))
                (Num.of_Z requests) (Num.of_Z t) initial
              = Fin (0 + (if Qle_bool (inject_Z requests - 0) (inject_Z requests)
                          then inject_Z requests - 0 else inject_Z requests))).
  { unfold tokens_before_take, held.
    change (Counter.last initial) with (Num.of_Z 0).
    change (Bucket.tokens (Counter.bucket initial)) with (Num.of_Z 0).
    change (Bucket.active (Counter.bucket initial)) with false.
    cbn [Configuration.behavior Configuration.per_seconds refill].
    rewrite passed_of_Z, lt_of_Z.
    replace ((t - 0) / 1000 <? per_seconds) with false.
    - rewrite andb_false_r. unfold Num.of_Z, Num.sub.
      rewrite min_Fin. reflexivity.
    - symmetry. apply Z.ltb_ge. rewrite Z.sub_0_r.
      apply Z.div_le_lower_bound; lia. }
  rewrite E, le_Fin_0 in H. clear E.
  set (x := (0 + _)%Q) in H.
  assert (Hx : (x == inject_Z requests)%Q).
  { subst x. destruct (Qle_bool (inject_Z requests - 0) _); ring. }
  replace (Qle_bool x 0) with false in H.
  - destruct (Counter.fetch _ _ _) as [response c'].
    destruct H as (H1 & H2 & H3). rewrite H3. cbn.
    repeat split; auto. eexists. split; [reflexivity|].
    rewrite Hx. unfold Z.sub. rewrite inject_Z_plus. reflexivity.
  - symmetry. apply Qle_bool_gt. rewrite Hx.
    change 0%Q with (inject_Z 0). rewrite <- Zlt_Qlt. exact Hr.
Qed.

(** Blocking with any quota and window: [requests] requests in one
    millisecond are allowed and the next is denied, when the clock is at
    least one window past the initial [last = 0]. *)
Lemma blocking_window (requests per_seconds t : Z) :
  0 < requests -> 0 < per_seconds -> per_seconds * 1000 <= t ->
  statuses (fst (serve initial
    (repeat (Num.of_Z t, request_of requests per_seconds Behavior.Blocking)
       (S (Z.to_nat requests)))))
  = repeat 200 (Z.to_nat requests) ++ [429].
Proof.
  intros Hr Hs Ht.
  replace (Z.to_nat requests) with (S (Z.to_nat (requests - 1))) by lia.
  set (k := Z.to_nat (requests - 1)).
  change (repeat ?x (S (S k))) with (x :: repeat x (S k)).
  rewrite statuses_serve_cons.
  pose proof (blocking_first_request requests per_seconds t Hr Hs Ht) as H.
  destruct (Counter.fetch _ _ initial) as [response c'].
  destruct H as (H1 & H2 & H3 & x & H4 & H5). cbn [fst snd].
  rewrite H1. cbn [repeat app]. f_equal.
  apply (drain_same_second requests per_seconds Behavior.Blocking Hr Hs
           t k c' x); auto.
  - rewrite H5. subst k. rewrite Z2Nat.id by lia. reflexivity.
  - subst k. lia.
Qed.

(** A clock that reads less than one window is outside what
    [new Date().getTime()] returns (milliseconds since 1970): there the
    fresh bucket is found empty by [should_block] and is held, so that all
    eleven requests are denied. *)
Lemma fresh_bucket_held_near_epoch :
  statuses (fst (serve initial
    (repeat (Num.of_Z 9999, request_of 10 10 Behavior.Blocking) 11)))
  = repeat 429 11 /\
  ~ (forall t : Z,
       statuses (fst (serve initial
         (repeat (Num.of_Z t, request_of 10 10 Behavior.Blocking) 11)))
       = repeat 200 10 ++ [429]).
Proof.
  assert (E : statuses (fst (serve initial
            (repeat (Num.of_Z 9999, request_of 10 10 Behavior.Blocking) 11)))
          = repeat 429 11) by (vm_compute; reflexivity).
  split; [exact E|].
  intros H. specialize (H 9999). rewrite E in H. discriminate.
Qed.

(** C1. With Configuration(10, 10, Blocking), from the initial state
    ([last = 0], inactive bucket of capacity 0), eleven requests at one
    current timestamp are answered by ten Allow and then one Deny.  The
    current timestamp is a reading of [new Date().getTime()], milliseconds
    since 1970, hence at least the ten seconds of one window. *)
Theorem hard_blocking (t : Z) :
  10000 <= t ->
  statuses (fst (serve initial
    (repeat (Num.of_Z t, request_of 10 10 Behavior.Blocking) 11)))
  = repeat 200 10 ++ [429].
Proof.
  intros Ht. apply (blocking_window 10 10 t); lia.
Qed.

Lemma hard_blocking_witness :
  10000 <= 1700000000000 /\
  statuses (fst (serve initial
    (repeat (Num.of_Z 1700000000000, request_of 10 10 Behavior.Blocking) 11)))
  = repeat 200 10 ++ [429].
Proof.
  split; [lia|]. apply (hard_blocking 1700000000000). lia.
Defined.

(** ** C2: graduated throttling *)

(** At a rate of 20 tokens per 10 seconds, one whole second refills 2. *)
Lemma refill_one_second (t l : Z) :
  (t - l) / 1000 = 1 ->
  refill (Num.of_Z 20) (Some (Num.of_Z 10)) (Num.of_Z t) (Num.of_Z l) true
    = Num.of_Z 2.
Proof.
  intros H. unfold refill. rewrite passed_of_Z, H. reflexivity.
Qed.

(** C2. With Configuration(20, 10, Throttling), once the bucket has been
    used and holds no token, and exactly one whole second has passed since
    the last admitted request, the requests at that time are allowed twice
    and the one after is denied. *)
Theorem throttling_refill (c : Counter.t) (l t : Z) (tk : Q) :
  Bucket.active (Counter.bucket c) = true ->
  Bucket.tokens (Counter.bucket c) = Fin tk ->
  (tk == 0)%Q ->
  Counter.last c = Num.of_Z l ->
  1000 <= t - l < 2000 ->
  statuses (fst (serve c
    (repeat (Num.of_Z t, request_of 20 10 Behavior.Throttling) 3)))
  = [200; 200; 429].
Proof.
  intros Ha Hk Hz Hl Ht.
  assert (Hp : (t - l) / 1000 = 1).
  { symmetry. apply (Z.div_unique (t - l) 1000 1 (t - l - 1000)); lia. }
  change (repeat ?x 3) with (x :: repeat x 2).
  rewrite statuses_serve_cons.
  pose proof (fetch_step (Num.of_Z t)
                (request_of 20 10 Behavior.Throttling) c (Num.of_Z 20)) as H.
  cbv zeta in H. rewrite configuration_request_of in H by lia.
  specialize (H eq_refl).
  unfold Counter.current_time in H. rewrite trunc_of_Z in H.
  assert (E : tokens_before_take
                (Configuration.mk (Some (Num.of_Z 20)) (Some (Num.of_Z 10))
                   (num Behavior.Throttling))
                (Num.of_Z 20) (Num.of_Z t) c
              = Fin (tk + inject_Z 2)).
  { unfold tokens_before_take, held.
    cbn [Configuration.behavior Configuration.per_seconds].
    change (not_Blocking (num Behavior.Throttling)) with true.
    cbn [negb andb].
    rewrite Ha, Hk, Hl, refill_one_second by exact Hp.
    unfold Num.of_Z, Num.sub. rewrite min_Fin. unfold Num.add.
    replace (Qle_bool (inject_Z 20 - tk) (inject_Z 2)) with false;
      [reflexivity|].
    symmetry. apply Qle_bool_gt. rewrite Hz. reflexivity. }
  rewrite E, le_Fin_0 in H. clear E.
  replace (Qle_bool (tk + inject_Z 2) 0) with false in H
    by (symmetry; apply Qle_bool_gt; rewrite Hz; reflexivity).
  destruct (Counter.fetch _ _ c) as [response c'].
  destruct H as (H1 & H2 & H3). cbn [fst snd].
  rewrite H1. f_equal.
  apply (drain_same_second 20 10 Behavior.Throttling
           ltac:(lia) ltac:(lia) t 1 c' (tk + inject_Z 2 - inject_Z 1)%Q).
  - rewrite H3. reflexivity.
  - exact H2.
  - rewrite H3. reflexivity.
  - rewrite Hz. reflexivity.
  - lia.
Qed.

Example exhausting_twenty :
  statuses (fst (serve initial
    (repeat (Num.of_Z 5000, request_of 20 10 Behavior.Throttling) 20)))
  = repeat 200 20 /\
  Counter.last exhausted_at_5000 = Num.of_Z 5000 /\
  Counter.bucket exhausted_at_5000 = Bucket.mk (Num.of_Z 20) (Num.of_Z 0) true.
Proof. vm_compute. repeat split; reflexivity. Qed.

Lemma throttling_refill_witness :
  Bucket.active (Counter.bucket exhausted_at_5000) = true /\
  Bucket.tokens (Counter.bucket exhausted_at_5000) = Fin 0 /\
  Counter.last exhausted_at_5000 = Num.of_Z 5000 /\
  1000 <= 6000 - 5000 < 2000 /\
  statuses (fst (serve exhausted_at_5000
    (repeat (Num.of_Z 6000, request_of 20 10 Behavior.Throttling) 3)))
  = [200; 200; 429].
Proof.
  assert (Ha : Bucket.active (Counter.bucket exhausted_at_5000) = true)
    by (vm_compute; reflexivity).
  assert (Hk : Bucket.tokens (Counter.bucket exhausted_at_5000) = Fin 0)
    by (vm_compute; reflexivity).
  assert (Hl : Counter.last exhausted_at_5000 = Num.of_Z 5000)
    by (vm_compute; reflexivity).
  split; [exact Ha|]. split; [exact Hk|]. split; [exact Hl|].
  split; [lia|].
  apply (throttling_refill exhausted_at_5000 5000 6000 0 Ha Hk
           (Qeq_refl 0) Hl).
  lia.
Defined.

(** ** C6: the capacity bound *)


Example negative_quota_state :
  Counter.bucket (snd (serve initial
    [(Num.of_Z 1700000000000,
      {| _configuration := Some (Parsed (str "-1") null undefined) |})]))
  = Bucket.mk (Fin (-1)) (Fin (-1)) true.
Proof. vm_compute. reflexivity. Qed.

(** A negative window makes the refill negative. *)
Example negative_window_state :
  Counter.bucket (snd (serve initial
    [(Num.of_Z 1700000000000,
      {| _configuration := Some (Parsed (str "1") (str "-1") undefined) |});
     (Num.of_Z 1700000002000,
      {| _configuration := Some (Parsed (str "1") (str "-1") undefined) |})]))
  = Bucket.mk (Num.of_Z 1) (Fin (-2)) true.
Proof. vm_compute. reflexivity. Qed.

(** Timestamps before the initial [last = 0]: the first request is held,
    the second one is refilled by a negative amount. *)
Example negative_timestamps_state :
  chronological (-5000) [-5000; -3000] = true /\
  Counter.bucket (snd (serve initial
    [(Num.of_Z (-5000), request_of 10 10 Behavior.Blocking);
     (Num.of_Z (-3000), request_of 10 10 Behavior.Throttling)]))
  = Bucket.mk (Num.of_Z 10) (Fin (-3)) true.
Proof. vm_compute. split; reflexivity. Qed.

Example fractional_quota_state :
  Counter.bucket (snd (serve initial
    [(Num.of_Z 1700000000000,
      {| _configuration := Some (Parsed (str "0.5") null undefined) |})]))
  = Bucket.mk (Fin (1 # 2)) (Fin (-1 # 2)) true.
Proof. vm_compute. reflexivity. Qed.



Lemma sound_persisted (now : Z) (c : Counter.t) :
  sound now c -> sound now (persisted c).
Proof.
  destruct (persisted_lookup c) as (_ & _ & Hl & Hb).
  unfold sound. rewrite Hl, Hb. auto.
Qed.

Lemma positive_integer_inv (n : number) :
  positive_integer n = true ->
  exists (q : Q) (z : Z), n = Fin q /\ (q == inject_Z z)%Q /\ 0 < z.
Proof.
  destruct n as [| s | q]; try discriminate. cbn.
  intros H. apply andb_true_iff in H. destruct H as [Hp Hi].
  apply Qltb_lt in Hp. apply Qeq_bool_iff in Hi.
  exists q, (Qfloor q). repeat split; [symmetry; exact Hi|].
  rewrite <- Hi in Hp. change 0%Q with (inject_Z 0) in Hp.
  rewrite <- Zlt_Qlt in Hp. exact Hp.
Qed.

Lemma positive_inv (n : number) :
  positive n = true -> exists q : Q, n = Fin q /\ (0 < q)%Q.
Proof.
  destruct n as [| s | q]; try discriminate. cbn.
  intros H. apply Qltb_lt in H. eauto.
Qed.

(** Under a well-formed configuration and a clock that did not go back,
    the amount given to [fill] is a non-negative integer. *)
Lemma refill_non_negative (q : Q) (r : Z) (per_seconds : option number)
    (t l : Z) (active : bool) :
  (q == inject_Z r)%Q -> 0 < r ->
  match per_seconds with None => true | Some s => positive s end = true ->
  l <= t ->
  exists (a : Q) (z : Z),
    refill (Fin q) per_seconds (Num.of_Z t) (Num.of_Z l) active = Fin a /\
    (a == inject_Z z)%Q /\ 0 <= z.
Proof.
  intros Hq Hr Hs Hlt. unfold refill. destruct active.
  - destruct per_seconds as [s|].
    + apply positive_inv in Hs. destruct Hs as (sq & -> & Hsq).
      rewrite passed_of_Z. rewrite div_Fin by lra.
      unfold Num.of_Z at 1. unfold Num.mul, Num.floor, Num.of_Z.
      eexists. eexists. split; [reflexivity|]. split; [reflexivity|].
      change 0 with (Qfloor 0). apply Qfloor_resp_le.
      apply Qmult_le_0_compat.
      * apply Qlt_le_weak, Qlt_shift_div_l; [exact Hsq|].
        rewrite Qmult_0_l, Hq. change 0%Q with (inject_Z 0).
        rewrite <- Zlt_Qlt. exact Hr.
      * change 0%Q with (inject_Z 0). rewrite <- Zle_Qle.
        apply Z.div_pos; lia.
    + exists (inject_Z 0), 0. repeat split; try reflexivity; lia.
  - exists q, r. repeat split; try exact Hq; lia.
Qed.

(** One request keeps the invariant. *)
Lemma sound_fetch (now t : Z) (request : Request) (c : Counter.t) :
  sound now c -> now <= t ->
  well_formed (Counter.configuration request) = true ->
  sound t (snd (Counter.fetch (Num.of_Z t) request c)).
Proof.
  intros (z & l & tk & mx & Hk & Hm & Hl & Hz & Hp & Hle & Hn) Hnt Hw.
  unfold well_formed in Hw. apply andb_true_iff in Hw. destruct Hw as [Hr Hs].
  destruct (Configuration.requests (Counter.configuration request))
    as [requests|] eqn:Er.
  - apply positive_integer_inv in Hr. destruct Hr as (q & r & -> & Hq & Hr).
    pose proof (fetch_step (Num.of_Z t) request c (Fin q) Er) as H.
    cbv zeta in H. unfold Counter.current_time in H. rewrite trunc_of_Z in H.
    destruct (refill_non_negative q r
                (Configuration.per_seconds (Counter.configuration request))
                t l (Bucket.active (Counter.bucket c)) Hq Hr Hs ltac:(lia))
      as (a & za & Ha & Hza & Hpa).
    assert (E : exists (x : Q) (zx : Z),
               tokens_before_take (Counter.configuration request) (Fin q)
                 (Num.of_Z t) c = Fin x /\
               (x == inject_Z zx)%Q /\ 0 <= zx /\ (x <= q)%Q).
    { unfold tokens_before_take. rewrite Hk, Hl, Ha.
      destruct (held _ _ _ _) eqn:Eh.
      - exists tk, z. repeat split; auto.
        unfold held in Eh. apply andb_true_iff in Eh. destruct Eh as [_ Eh].
        destruct (Configuration.per_seconds _); [|discriminate].
        apply andb_true_iff in Eh. destruct Eh as [Eh _].
        rewrite le_Fin_0 in Eh. apply Qle_bool_iff in Eh.
        rewrite Hq. change 0%Q with (inject_Z 0) in Eh.
        apply Qle_trans with (inject_Z 0); [exact Eh|].
        rewrite <- Zle_Qle. lia.
      - unfold Num.sub. rewrite min_Fin. unfold Num.add.
        destruct (Qle_bool (q - tk) a) eqn:Em.
        + exists (tk + (q - tk))%Q, r. repeat split; [|lia|].
          * rewrite <- Hq. ring.
          * apply Qle_lteq. right. ring.
        + exists (tk + a)%Q, (z + za). repeat split; [|lia|].
          * rewrite Hz, Hza, inject_Z_plus. reflexivity.
          * apply Qle_bool_gt in Em. lra. }
    destruct E as (x & zx & Ex & Hx & Hpx & Hxq).
    rewrite Ex, le_Fin_0 in H.
    destruct (Counter.fetch _ _ c) as [response c']. cbn [snd].
    destruct H as (_ & Hl' & Hb').
    destruct (Qle_bool x 0) eqn:Ee.
    + exists zx, l, x, q. rewrite Hb', Hl'. cbn.
      repeat split; auto. lia.
    + exists (zx - 1), t, (x - inject_Z 1)%Q, q. rewrite Hb', Hl'. cbn.
      apply Qle_bool_gt in Ee.
      assert (0 < zx).
      { rewrite Hx in Ee. change 0%Q with (inject_Z 0) in Ee.
        rewrite <- Zlt_Qlt in Ee. exact Ee. }
      repeat split; auto; try lia.
      * rewrite Hx. unfold Z.sub. rewrite inject_Z_plus. reflexivity.
      * change (inject_Z 1) with 1%Q. lra.
  - unfold Counter.fetch. rewrite Er, respond_true. cbn [snd].
    apply sound_persisted. unfold Counter.current_time. rewrite trunc_of_Z.
    exists z, t, tk, mx. cbn. repeat split; auto. lia.
Qed.

Lemma sound_serve (rs : list (Z * Request)) :
  forall (now : Z) (c : Counter.t),
    sound now c ->
    chronological now (map fst rs) = true ->
    forallb (fun tr => well_formed (Counter.configuration (snd tr))) rs
      = true ->
    exists now', sound now' (snd (serve c (clocked rs))).
Proof.
  induction rs as [|[t r] rs IH]; intros now c Hc Ht Hw.
  - exists now. exact Hc.
  - cbn [map fst chronological] in Ht. cbn [forallb snd] in Hw.
    apply andb_true_iff in Ht. destruct Ht as [Ht Hts].
    apply andb_true_iff in Hw. destruct Hw as [Hw Hws].
    apply Z.leb_le in Ht.
    cbn [clocked map fst snd]. rewrite state_serve_cons.
    apply (IH t); auto.
    apply (sound_fetch now); auto.
Qed.













Example shrinking_quota_state :
  Counter.bucket (snd (serve initial (clocked shrinking_quota)))
  = Bucket.mk (Num.of_Z 5) (Num.of_Z 4) true.
Proof. vm_compute. reflexivity. Qed.

(** ** C10: a clock that goes back *)


Example fill_amount_negative_quota :
  fst (Counter.fill_amount (Fin (-5)) (Some (Num.of_Z 10)) (Num.of_Z 1000)
         (Counter.mk ∅ (Num.of_Z 2000) (Bucket.mk (Fin (-5)) (Fin (-5)) true)))
  = Num.of_Z 0.
Proof. vm_compute. reflexivity. Qed.



Example backwards_clock_request :
  let c := Counter.mk ∅ (Num.of_Z 2000)
             (Bucket.mk (Num.of_Z 20) (Num.of_Z 5) true) in
  let (response, c') :=
    Counter.fetch (Num.of_Z 1000) (request_of 20 10 Behavior.Throttling) c in
  status response = 200 /\
  Counter.bucket c' = Bucket.mk (Num.of_Z 20) (Num.of_Z 2) true.
Proof. vm_compute. split; reflexivity. Qed.

(** * Further properties of the code *)

(** ** The bucket *)

(** On safe integers, [fill] adds [min(max - tokens, num)] exactly: it
    never leaves more tokens than [max]; an amount that reaches the capacity
    sets the tokens to [max] (also downwards, when the capacity shrank
    below the tokens); a non-negative amount on a bucket within its
    capacity never takes tokens away.  [max] and [active] are kept. *)
Theorem fill_capped (b : Bucket.t) (mx tk : Q) (zm ztk zn : Z) :
  Bucket.max b = Fin mx -> (mx == inject_Z zm)%Q ->
  0 <= zm <= MAX_SAFE_INTEGER ->
  Bucket.tokens b = Fin tk -> (tk == inject_Z ztk)%Q ->
  0 <= ztk <= MAX_SAFE_INTEGER ->
  Z.abs zn <= MAX_SAFE_INTEGER ->
  exists tk' : Q,
    snd (Bucket.fill (Num.of_Z zn) b)
      = Bucket.mk (Fin mx) (Fin tk') (Bucket.active b) /\
    (tk' == inject_Z (ztk + Z.min (zm - ztk) zn))%Q /\
    (tk' <= mx)%Q /\
    (zm - ztk <= zn -> (tk' == mx)%Q) /\
    (0 <= zn -> ztk <= zm -> (tk <= tk')%Q).
Proof.
  intros Hm Hqm _ Hk Hqk _ _. unfold Bucket.fill, modify. cbn [snd].
  rewrite Hm, Hk. unfold Num.of_Z, Num.sub. rewrite min_Fin. unfold Num.add.
  eexists. split; [reflexivity|].
  destruct (Qle_bool (mx - tk) (inject_Z zn)) eqn:E.
  - apply Qle_bool_iff in E.
    assert (Hz : zm - ztk <= zn).
    { rewrite Zle_Qle. unfold Z.sub.
      rewrite inject_Z_plus, inject_Z_opp, <- Hqm, <- Hqk. exact E. }
    rewrite Z.min_l by exact Hz.
    replace (ztk + (zm - ztk)) with zm by lia.
    repeat split; intros; try rewrite <- Hqm; try lra.
    assert (tk <= mx)%Q by (rewrite Hqm, Hqk, <- Zle_Qle; assumption).
    lra.
  - apply Qle_bool_gt in E.
    assert (Hz : zn < zm - ztk).
    { rewrite Zlt_Qlt. unfold Z.sub.
      rewrite inject_Z_plus, inject_Z_opp, <- Hqm, <- Hqk. exact E. }
    rewrite Z.min_r by lia. rewrite inject_Z_plus, <- Hqk.
    repeat split; intros; try lra; try lia.
    assert (0 <= inject_Z zn)%Q
      by (change 0%Q with (inject_Z 0); rewrite <- Zle_Qle; assumption).
    lra.
Qed.

Lemma fill_capped_witness :
  exists tk' : Q,
    snd (Bucket.fill (Num.of_Z 3) (Bucket.mk (Num.of_Z 5) (Num.of_Z 9) true))
      = Bucket.mk (Fin (inject_Z 5)) (Fin tk') true /\
    (tk' == inject_Z (9 + Z.min (5 - 9) 3))%Q /\
    (tk' <= inject_Z 5)%Q /\
    (5 - 9 <= 3 -> (tk' == inject_Z 5)%Q) /\
    (0 <= 3 -> 9 <= 5 -> (inject_Z 9 <= tk')%Q).
Proof.
  apply (fill_capped (Bucket.mk (Num.of_Z 5) (Num.of_Z 9) true)
           (inject_Z 5) (inject_Z 9) 5 9 3);
    try reflexivity; unfold MAX_SAFE_INTEGER; lia.
Defined.

(** [should_block] never consumes: whatever it answers, it leaves [last],
    the storage, and the [max] and [tokens] of the bucket as they were, so
    that the [take] that follows decides on the same tokens. *)
Theorem should_block_frame (time : number) (configuration : Configuration.t)
    (c : Counter.t) :
  let c' := snd (Counter.should_block time configuration c) in
  Counter.last c' = Counter.last c /\
  Counter.storage c' = Counter.storage c /\
  Bucket.max (Counter.bucket c') = Bucket.max (Counter.bucket c) /\
  Bucket.tokens (Counter.bucket c') = Bucket.tokens (Counter.bucket c) /\
  forall pre, fst (Bucket.take pre (Counter.bucket c'))
              = fst (Bucket.take pre (Counter.bucket c)).
Proof.
  unfold Counter.should_block.
  destruct (not_Blocking _); [cbn; auto|].
  destruct (Configuration.per_seconds configuration); [|cbn; auto].
  run_state.
  destruct (Bucket.tokens (Counter.bucket c) <= Num.of_Z 0)%num eqn:E;
    cbn; rewrite ?E; auto.
Qed.

(** ** Cold restart *)

Lemma truthy_of_Z (l : Z) :
  (if Num.truthy (Num.of_Z l) then Num.of_Z l else Num.of_Z 0) = Num.of_Z l.
Proof.
  unfold Num.truthy, Num.of_Z.
  destruct (Num.is_zero (inject_Z l)) eqn:E; cbn; [|reflexivity].
  apply is_zero_true in E. apply (inject_Z_injective l 0) in E.
  subst l. reflexivity.
Qed.

(** What [persist] writes is what the constructor reads back. *)
Lemma reload_persisted (c : Counter.t) (l : Z) :
  Counter.last c = Num.of_Z l ->
  Counter.constructor (Counter.storage (persisted c)) = persisted c.
Proof.
  intros Hl.
  destruct (persisted_lookup c) as (H1 & H2 & H3 & H4).
  unfold Counter.constructor. rewrite H1, H2, Hl, truthy_of_Z.
  destruct (persisted c) as [st la bu]. cbn in *. subst la bu.
  rewrite Hl. destruct (Counter.bucket c). reflexivity.
Qed.

Lemma fetch_persists (now : number) (request : Request) (c : Counter.t) :
  exists c0,
    snd (Counter.fetch now request c) = persisted c0 /\
    (Counter.last c0 = Counter.last c \/
     Counter.last c0 = Counter.current_time now).
Proof.
  destruct (Configuration.requests (Counter.configuration request))
    as [requests|] eqn:E.
  - rewrite (fetch_limited now request c requests E).
    destruct (_ <= _)%num; eexists; split; try reflexivity; cbn; auto.
  - unfold Counter.fetch. rewrite E, respond_true.
    eexists. split; [reflexivity|]. cbn. auto.
Qed.

Lemma reload_fetch (t l : Z) (request : Request) (c : Counter.t) :
  Counter.last c = Num.of_Z l ->
  let c' := snd (Counter.fetch (Num.of_Z t) request c) in
  Counter.constructor (Counter.storage c') = c'.
Proof.
  intros Hl c'. subst c'.
  destruct (fetch_persists (Num.of_Z t) request c) as (c0 & -> & [H | H]).
  - apply (reload_persisted c0 l). congruence.
  - apply (reload_persisted c0 t). rewrite H.
    unfold Counter.current_time. apply trunc_of_Z.
Qed.

(** Reloading after a request: when [last] is an integer timestamp and the
    clock reads an integer, the engine rebuilt by the constructor from the
    storage the request left is the engine the request left. *)
Theorem reload_after_fetch (t l : Z) (request : Request) (c : Counter.t) :
  Counter.last c = Num.of_Z l ->
  let c' := snd (Counter.fetch (Num.of_Z t) request c) in
  Counter.constructor (Counter.storage c') = c'.
Proof. exact (reload_fetch t l request c). Qed.

Lemma reload_after_fetch_witness :
  let c := Counter.mk ∅ (Num.of_Z 5000)
             (Bucket.mk (Num.of_Z 20) (Num.of_Z 0) true) in
  let c' := snd (Counter.fetch (Num.of_Z 6000)
                   (request_of 20 10 Behavior.Throttling) c) in
  Counter.constructor (Counter.storage c') = c'.
Proof.
  apply (reload_after_fetch 6000 5000). reflexivity.
Defined.

(** The clock must read a number for this: after a request admitted while
    the clock reads [NaN], the constructor reads [last] back as 0. *)
Example reload_after_NaN :
  let c' := snd (Counter.fetch NaN {| _configuration := None |} initial) in
  Counter.last c' = NaN /\
  Counter.last (Counter.constructor (Counter.storage c')) = Num.of_Z 0.
Proof. vm_compute. split; reflexivity. Qed.

Lemma serve_app (c : Counter.t) (rs1 rs2 : list (number * Request)) :
  serve c (rs1 ++ rs2) =
    let '(resps1, c1) := serve c rs1 in
    let '(resps2, c2) := serve c1 rs2 in
    (resps1 ++ resps2, c2).
Proof.
  revert c. induction rs1 as [|[now r] rs1 IH]; intros c; cbn [serve app].
  - destruct (serve c rs2). reflexivity.
  - destruct (Counter.fetch now r c) as [resp c']. rewrite IH.
    destruct (serve c' rs1) as [resps1 c1].
    destruct (serve c1 rs2) as [resps2 c2]. reflexivity.
Qed.

Lemma serve_reloadable (rs : list (Z * Request)) :
  forall (c : Counter.t) (l : Z),
    Counter.last c = Num.of_Z l ->
    Counter.constructor (Counter.storage c) = c ->
    let c' := snd (serve c (clocked rs)) in
    Counter.constructor (Counter.storage c') = c'.
Proof.
  induction rs as [|[t r] rs IH]; intros c l Hl Hc; [exact Hc|].
  cbn [clocked map fst snd]. rewrite state_serve_cons.
  destruct (fetch_persists (Num.of_Z t) r c) as (c0 & E & H).
  assert (Hl' : exists l', Counter.last (snd (Counter.fetch (Num.of_Z t) r c))
                           = Num.of_Z l').
  { rewrite E. destruct (persisted_lookup c0) as (_ & _ & -> & _).
    destruct H as [-> | ->]; [eauto|].
    exists t. unfold Counter.current_time. apply trunc_of_Z. }
  destruct Hl' as [l' Hl'].
  apply (IH _ l' Hl'). apply (reload_fetch t l r c Hl).
Qed.

(** Cold-restart consistency: tearing the engine down at any point of a run
    that started from a never-seen identifier, and rebuilding it from its
    storage, changes neither the responses that follow nor the final state. *)
Theorem restart_is_unobservable (rs1 rs2 : list (Z * Request)) :
  let '(responses1, c1) := serve initial (clocked rs1) in
  let '(responses2, c2) :=
    serve (Counter.constructor (Counter.storage c1)) (clocked rs2) in
  serve initial (clocked (rs1 ++ rs2)) = (responses1 ++ responses2, c2).
Proof.
  unfold clocked at 3. rewrite map_app. fold (clocked rs1) (clocked rs2).
  rewrite serve_app.
  pose proof (serve_reloadable rs1 initial 0 eq_refl eq_refl) as H.
  cbv zeta in H.
  destruct (serve initial (clocked rs1)) as [responses1 c1]. cbn [snd] in H.
  rewrite H. destruct (serve c1 (clocked rs2)). reflexivity.
Qed.

(** ** Bursts of requests *)

Section Burst.

Variables requests per_seconds : Z.
Variable behavior : number.
Hypothesis requests_positive : 0 < requests.
Hypothesis per_seconds_positive : 0 < per_seconds.

Local Abbreviation request := (request_of requests per_seconds behavior).

Local Abbreviation configuration :=
  (Configuration.mk (Some (Num.of_Z requests)) (Some (Num.of_Z per_seconds))
     (num behavior)).

Lemma fetch_step_at (t : Z) (c : Counter.t) :
  let tokens :=
    tokens_before_take configuration (Num.of_Z requests) (Num.of_Z t) c in
  let empty := (tokens <= Num.of_Z 0)%num in
  status (fst (Counter.fetch (Num.of_Z t) request c))
    = (if empty then 429 else 200) /\
  Counter.last (snd (Counter.fetch (Num.of_Z t) request c))
    = (if empty then Counter.last c else Num.of_Z t) /\
  Counter.bucket (snd (Counter.fetch (Num.of_Z t) request c))
    = Bucket.mk (Num.of_Z requests)
        (if empty then tokens else (tokens - Num.of_Z 1)%num) true.
Proof.
  pose proof (fetch_step (Num.of_Z t) request c (Num.of_Z requests)) as H.
  cbv zeta in H. rewrite configuration_request_of in H by lia.
  specialize (H eq_refl).
  unfold Counter.current_time in H. rewrite trunc_of_Z in H.
  destruct (Counter.fetch (Num.of_Z t) request c). exact H.
Qed.

(** With [k] tokens left, of [n] requests in the millisecond of the last
    admitted one the first [k] are allowed and the others denied. *)
Lemma drain_any (t : Z) (n : nat) :
  forall (k : nat) (c : Counter.t) (tk : Q),
    Bucket.active (Counter.bucket c) = true ->
    Counter.last c = Num.of_Z t ->
    Bucket.tokens (Counter.bucket c) = Fin tk ->
    (tk == inject_Z (Z.of_nat k))%Q ->
    Z.of_nat k <= requests ->
    statuses (fst (serve c (repeat (Num.of_Z t, request) n)))
      = repeat 200 (Nat.min k n) ++ repeat 429 (n - k).
Proof.
  induction n as [|n IH]; intros k c tk Ha Hl Hk Hq Hr.
  - rewrite Nat.min_0_r. reflexivity.
  - cbn [repeat]. rewrite statuses_serve_cons.
    destruct (fetch_step_at t c) as (Hst & Hl' & Hb').
    destruct (tokens_same_second requests per_seconds behavior
                per_seconds_positive t t c tk)
      as (x & Hx & Hb); auto.
    { rewrite Z.sub_diag. reflexivity. }
    { rewrite Hq, <- Zle_Qle. exact Hr. }
    rewrite Hb, le_Fin_0 in Hst, Hl', Hb'. rewrite Hst.
    destruct k as [|k].
    + replace (Qle_bool x 0) with true in *
        by (symmetry; apply Qle_bool_iff; rewrite Hx, Hq; apply Qle_refl).
      rewrite (IH 0%nat _ x); auto.
      * rewrite Nat.sub_0_r. reflexivity.
      * rewrite Hb'. reflexivity.
      * congruence.
      * rewrite Hb'. reflexivity.
      * rewrite Hx. exact Hq.
    + replace (Qle_bool x 0) with false in *.
      * rewrite (IH k _ (x - inject_Z 1)%Q); auto.
        -- rewrite Hb'. reflexivity.
        -- rewrite Hb'. reflexivity.
        -- rewrite Hx, Hq, Nat2Z.inj_succ. unfold Z.succ.
           rewrite inject_Z_plus. ring.
        -- lia.
      * symmetry. apply Qle_bool_gt. rewrite Hx, Hq.
        change 0%Q with (inject_Z 0). rewrite <- Zlt_Qlt. lia.
Qed.

Lemma tokens_from_empty (t l : Z) (c : Counter.t) (tk : Q) :
  Bucket.active (Counter.bucket c) = true ->
  Counter.last c = Num.of_Z l ->
  Bucket.tokens (Counter.bucket c) = Fin tk ->
  (tk == 0)%Q ->
  exists x,
    tokens_before_take configuration (Num.of_Z requests) (Num.of_Z t) c
      = Fin x /\
    (x == inject_Z (offered requests per_seconds behavior
                      ((t - l) / 1000)))%Q.
Proof.
  intros Ha Hl Hk Hz. unfold tokens_before_take, offered, hold.
  rewrite Ha, Hl, Hk. unfold held.
  cbn [Configuration.behavior Configuration.per_seconds].
  rewrite passed_of_Z, lt_of_Z, le_Fin_0.
  replace (Qle_bool tk 0) with true
    by (symmetry; apply Qle_bool_iff; rewrite Hz; apply Qle_refl).
  cbn [andb].
  destruct (negb (not_Blocking (num behavior)) && _).
  - exists tk. split; [reflexivity | exact Hz].
  - rewrite refill_whole_seconds by lia.
    set (f := requests * ((t - l) / 1000) / per_seconds).
    unfold Num.of_Z, Num.sub. rewrite min_Fin. unfold Num.add.
    eexists. split; [reflexivity|].
    destruct (Qle_bool (inject_Z requests - tk) (inject_Z f)) eqn:E.
    + apply Qle_bool_iff in E. rewrite Hz in E.
      assert (requests <= f).
      { rewrite Zle_Qle. lra. }
      rewrite Z.min_l by lia. ring.
    + apply Qle_bool_gt in E. rewrite Hz in E.
      assert (f < requests).
      { rewrite Zlt_Qlt. lra. }
      rewrite Z.min_r by lia. rewrite Hz. ring.
Qed.

End Burst.

Lemma offered_bounds (requests per_seconds : Z) (behavior : number) (p : Z) :
  0 < requests -> 0 < per_seconds -> 0 <= p ->
  0 <= offered requests per_seconds behavior p <= requests.
Proof.
  intros Hr Hs Hp. unfold offered.
  destruct (hold per_seconds behavior p); [lia|].
  assert (0 <= requests * p / per_seconds) by (apply Z.div_pos; nia).
  lia.
Qed.

(** In exact arithmetic: an empty, used bucket, [p] whole seconds after
    the last admitted request: of [n] requests in one millisecond, the
    first [offered p] are allowed and the others denied. *)
Lemma burst_from_empty (requests per_seconds : Z) (behavior : number)
    (t l : Z) (n : nat) :
  0 < requests -> 0 < per_seconds -> 0 <= (t - l) / 1000 ->
  forall (c : Counter.t) (tk : Q),
    Bucket.active (Counter.bucket c) = true ->
    Counter.last c = Num.of_Z l ->
    Bucket.tokens (Counter.bucket c) = Fin tk ->
    (tk == 0)%Q ->
    let k := Z.to_nat (offered requests per_seconds behavior ((t - l) / 1000)) in
    statuses (fst (serve c
      (repeat (Num.of_Z t, request_of requests per_seconds behavior) n)))
    = repeat 200 (Nat.min k n) ++ repeat 429 (n - k).
Proof.
  intros Hr Hs Hp.
  pose proof (offered_bounds requests per_seconds behavior _ Hr Hs Hp) as Ho.
  set (o := offered requests per_seconds behavior ((t - l) / 1000)) in *.
  induction n as [|n IH]; intros c tk Ha Hl Hk Hz k.
  - rewrite Nat.min_0_r. reflexivity.
  - cbn [repeat]. rewrite statuses_serve_cons.
    destruct (fetch_step_at requests per_seconds behavior Hr Hs t c)
      as (Hst & Hl' & Hb').
    destruct (tokens_from_empty requests per_seconds behavior Hs t l c tk
                Ha Hl Hk Hz) as (x & Hb & Hx).
    fold o in Hx. rewrite Hb, le_Fin_0 in Hst, Hl', Hb'. rewrite Hst.
    destruct (Z.eq_dec o 0) as [E | E].
    + assert (Hx0 : (x == 0)%Q) by (rewrite Hx, E; reflexivity).
      replace (Qle_bool x 0) with true in *
        by (symmetry; apply Qle_bool_iff; rewrite Hx0; apply Qle_refl).
      specialize (IH _ x ltac:(rewrite Hb'; reflexivity)
                    ltac:(congruence) ltac:(rewrite Hb'; reflexivity) Hx0).
      cbv zeta in IH. rewrite IH. subst k. rewrite E. cbn.
      rewrite Nat.sub_0_r. reflexivity.
    + replace (Qle_bool x 0) with false in *.
      * rewrite (drain_any requests per_seconds behavior Hr Hs t n
                   (Z.to_nat (o - 1)) _ (x - inject_Z 1)%Q).
        -- subst k. replace (Z.to_nat o) with (S (Z.to_nat (o - 1))) by lia.
           reflexivity.
        -- rewrite Hb'. reflexivity.
        -- exact Hl'.
        -- rewrite Hb'. reflexivity.
        -- rewrite Hx, Z2Nat.id by lia. unfold Z.sub.
           rewrite inject_Z_plus. reflexivity.
        -- lia.
      * symmetry. apply Qle_bool_gt. rewrite Hx.
        change 0%Q with (inject_Z 0). rewrite <- Zlt_Qlt. lia.
Qed.

(** Throttling at a whole number of tokens per second: with
    [requests = rate * per_seconds] a safe integer and safe integer
    timestamps, [p] whole seconds after the last admitted request emptied
    the bucket, a burst of [n] requests is allowed
    [min(requests, rate * p)] times, then denied. *)
Theorem throttling_rate (rate per_seconds t l : Z) (n : nat)
    (c : Counter.t) (tk : Q) :
  0 < rate -> 0 < per_seconds ->
  rate * per_seconds <= MAX_SAFE_INTEGER ->
  0 <= l -> l <= t -> t <= MAX_SAFE_INTEGER ->
  Bucket.active (Counter.bucket c) = true ->
  Counter.last c = Num.of_Z l ->
  Bucket.tokens (Counter.bucket c) = Fin tk ->
  (tk == 0)%Q ->
  let requests := rate * per_seconds in
  let k := Z.to_nat (Z.min requests (rate * ((t - l) / 1000))) in
  statuses (fst (serve c
    (repeat (Num.of_Z t,
             request_of (Num.of_Z requests) (Num.of_Z per_seconds)
               Behavior.Throttling) n)))
  = repeat 200 (Nat.min k n) ++ repeat 429 (n - k).
Proof.
  intros Hr Hs _ _ Hlt _ Ha Hl Hk Hz requests k.
  pose proof (burst_from_empty requests per_seconds Behavior.Throttling t l n
                ltac:(subst requests; nia) Hs ltac:(apply Z.div_pos; lia)
                c tk Ha Hl Hk Hz) as H.
  cbv zeta in H. rewrite H. subst k. unfold offered, hold.
  change (not_Blocking (num Behavior.Throttling)) with true. cbn [negb andb].
  subst requests.
  replace (rate * per_seconds * ((t - l) / 1000) / per_seconds)
    with (rate * ((t - l) / 1000)).
  - reflexivity.
  - replace (rate * per_seconds * ((t - l) / 1000))
      with (rate * ((t - l) / 1000) * per_seconds) by ring.
    symmetry. apply Z.div_mul. lia.
Qed.

Lemma throttling_rate_witness :
  statuses (fst (serve exhausted_at_5000
    (repeat (Num.of_Z 8500,
             request_of (Num.of_Z (2 * 10)) (Num.of_Z 10)
               Behavior.Throttling) 8)))
  = repeat 200 6 ++ repeat 429 2.
Proof.
  apply (throttling_rate 2 10 8500 5000 8 exhausted_at_5000 0);
    try (unfold MAX_SAFE_INTEGER; lia); vm_compute; reflexivity.
Defined.

(** In exact arithmetic: the release after one window, for any quota. *)
Lemma release_run (requests per_seconds t l : Z) (n : nat)
    (c : Counter.t) (tk : Q) :
  0 < requests -> 0 < per_seconds ->
  per_seconds * 1000 <= t - l ->
  Bucket.active (Counter.bucket c) = true ->
  Counter.last c = Num.of_Z l ->
  Bucket.tokens (Counter.bucket c) = Fin tk ->
  (tk == 0)%Q ->
  statuses (fst (serve c
    (repeat (Num.of_Z t, request_of requests per_seconds Behavior.Blocking)
       n)))
  = repeat 200 (Nat.min (Z.to_nat requests) n)
    ++ repeat 429 (n - Z.to_nat requests).
Proof.
  intros Hr Hs Hw Ha Hl Hk Hz.
  assert (Hp : per_seconds <= (t - l) / 1000)
    by (apply Z.div_le_lower_bound; lia).
  pose proof (burst_from_empty requests per_seconds Behavior.Blocking t l n
                Hr Hs ltac:(lia) c tk Ha Hl Hk Hz) as H.
  cbv zeta in H. rewrite H. unfold offered, hold.
  replace ((t - l) / 1000 <? per_seconds) with false
    by (symmetry; apply Z.ltb_ge; exact Hp).
  rewrite andb_false_r.
  assert (requests <= requests * ((t - l) / 1000) / per_seconds).
  { apply Z.div_le_lower_bound; nia. }
  rewrite Z.min_l by lia. reflexivity.
Qed.

(** Blocking at a whole number of tokens per second: with
    [requests = rate * per_seconds] a safe integer and safe integer
    timestamps, once a full window has passed since the last admitted
    request emptied the bucket the whole quota is available again: a burst
    of [n] requests is allowed [requests] times, then denied. *)
Theorem blocking_release (rate per_seconds t l : Z) (n : nat)
    (c : Counter.t) (tk : Q) :
  0 < rate -> 0 < per_seconds ->
  rate * per_seconds <= MAX_SAFE_INTEGER ->
  0 <= l -> t <= MAX_SAFE_INTEGER ->
  per_seconds * 1000 <= t - l ->
  Bucket.active (Counter.bucket c) = true ->
  Counter.last c = Num.of_Z l ->
  Bucket.tokens (Counter.bucket c) = Fin tk ->
  (tk == 0)%Q ->
  let requests := rate * per_seconds in
  statuses (fst (serve c
    (repeat (Num.of_Z t,
             request_of (Num.of_Z requests) (Num.of_Z per_seconds)
               Behavior.Blocking) n)))
  = repeat 200 (Nat.min (Z.to_nat requests) n)
    ++ repeat 429 (n - Z.to_nat requests).
Proof.
  intros Hr Hs _ _ _ Hw Ha Hl Hk Hz requests.
  exact (release_run requests per_seconds t l n c tk
           ltac:(subst requests; nia) Hs Hw Ha Hl Hk Hz).
Qed.

Lemma blocking_release_witness :
  statuses (fst (serve
    (Counter.mk ∅ (Num.of_Z 5000) (Bucket.mk (Num.of_Z 30) (Num.of_Z 0) true))
    (repeat (Num.of_Z 15000,
             request_of (Num.of_Z (3 * 10)) (Num.of_Z 10) Behavior.Blocking)
       32)))
  = repeat 200 30 ++ repeat 429 2.
Proof.
  apply (blocking_release 3 10 15000 5000 32
           (Counter.mk ∅ (Num.of_Z 5000)
              (Bucket.mk (Num.of_Z 30) (Num.of_Z 0) true)) 0);
    try (unfold MAX_SAFE_INTEGER; lia); reflexivity.
Defined.

(** ** The hold of the Blocking behavior *)

Lemma hold_run (requests per_seconds l : Z) (ts : list Z)
    (c : Counter.t) (tk : Q) :
  0 < requests -> 0 < per_seconds ->
  Counter.last c = Num.of_Z l ->
  Bucket.tokens (Counter.bucket c) = Fin tk ->
  (tk <= 0)%Q ->
  forallb (fun t => (t - l) / 1000 <? per_seconds) ts = true ->
  let '(responses, c') :=
    serve c (at_times (request_of requests per_seconds Behavior.Blocking)
               (map Num.of_Z ts)) in
  statuses responses = repeat 429 (length ts) /\
  Counter.last c' = Num.of_Z l /\
  Bucket.tokens (Counter.bucket c') = Fin tk /\
  (Bucket.active (Counter.bucket c) = true \/ ts <> [] ->
   Bucket.active (Counter.bucket c') = true).
Proof.
  intros Hr Hs. revert c.
  induction ts as [|t ts IH]; intros c Hl Hk Hz Hts.
  - cbn. repeat split; auto. intros [H | H]; [exact H | contradiction].
  - cbn [forallb] in Hts. apply andb_true_iff in Hts. destruct Hts as [Ht Hts].
    cbn [map at_times serve].
    destruct (fetch_step_at requests per_seconds Behavior.Blocking Hr Hs t c)
      as (Hst & Hl' & Hb').
    assert (E : tokens_before_take
                  (Configuration.mk (Some (Num.of_Z requests))
                     (Some (Num.of_Z per_seconds)) (num Behavior.Blocking))
                  (Num.of_Z requests) (Num.of_Z t) c = Fin tk).
    { unfold tokens_before_take, held.
      cbn [Configuration.behavior Configuration.per_seconds].
      rewrite Hl, Hk, passed_of_Z, lt_of_Z, Ht, le_Fin_0.
      replace (Qle_bool tk 0) with true
        by (symmetry; apply Qle_bool_iff; exact Hz).
      reflexivity. }
    rewrite E, le_Fin_0 in Hst, Hl', Hb'.
    replace (Qle_bool tk 0) with true in *
      by (symmetry; apply Qle_bool_iff; exact Hz).
    destruct (Counter.fetch _ _ c) as [response c1]. cbn [fst snd] in *.
    specialize (IH c1 ltac:(congruence) ltac:(rewrite Hb'; reflexivity)
                  Hz Hts).
    fold (at_times (request_of requests per_seconds Behavior.Blocking)
            (map Num.of_Z ts)).
    destruct (serve c1 _) as [responses c']. cbn [statuses map length repeat].
    destruct IH as (H1 & H2 & H3 & H4). fold (statuses responses).
    rewrite Hst, H1. repeat split; auto.
    intros _. apply H4. left. rewrite Hb'. reflexivity.
Qed.

(** Blocking: while the bucket holds no token, every request whose time is
    less than [per_seconds] whole seconds after [last] is denied, whatever
    the order of the timestamps and whether the bucket was ever used; the
    tokens and [last] stay as they are, so the hold does not extend. *)
Theorem blocking_hold (requests per_seconds l : Z) (ts : list Z)
    (c : Counter.t) (tk : Q) :
  0 < requests -> 0 < per_seconds ->
  Counter.last c = Num.of_Z l ->
  Bucket.tokens (Counter.bucket c) = Fin tk ->
  (tk <= 0)%Q ->
  forallb (fun t => (t - l) / 1000 <? per_seconds) ts = true ->
  let '(responses, c') :=
    serve c (at_times (request_of requests per_seconds Behavior.Blocking)
               (map Num.of_Z ts)) in
  statuses responses = repeat 429 (length ts) /\
  Counter.last c' = Num.of_Z l /\
  Bucket.tokens (Counter.bucket c') = Fin tk /\
  (Bucket.active (Counter.bucket c) = true \/ ts <> [] ->
   Bucket.active (Counter.bucket c') = true).
Proof.
  exact (hold_run requests per_seconds l ts c tk).
Qed.

(** A never-seen identifier is held in the same way, from [last = 0]. *)
Lemma blocking_hold_witness :
  let '(responses, c') :=
    serve initial
      (at_times (request_of 10 10 Behavior.Blocking)
         (map Num.of_Z [9000; 2000; 9999])) in
  statuses responses = repeat 429 3 /\
  Counter.last c' = Num.of_Z 0 /\
  Bucket.tokens (Counter.bucket c') = Fin (inject_Z 0) /\
  (Bucket.active (Counter.bucket initial) = true \/
   [9000; 2000; 9999] <> [] ->
   Bucket.active (Counter.bucket c') = true).
Proof.
  apply (blocking_hold 10 10 0 [9000; 2000; 9999] initial (inject_Z 0));
    try lia; try reflexivity.
  unfold Qle; cbn; lia.
Defined.

Lemma forallb_weaken {A} (f g : A -> bool) (l : list A) :
  (forall x, f x = true -> g x = true) ->
  forallb f l = true -> forallb g l = true.
Proof.
  intros H. induction l as [|x l IH]; [reflexivity|]. cbn [forallb].
  intros E. apply andb_true_iff in E. destruct E as [E1 E2].
  rewrite (H _ E1), (IH E2). reflexivity.
Qed.

(** Blocking as a whole, at a whole number of tokens per second and on
    safe integers: after the bucket was emptied at [last], the requests
    that arrive within the window are denied and do not extend the hold;
    once [per_seconds] seconds have passed since [last], the whole quota
    is allowed again. *)
Theorem hold_then_release (rate per_seconds l t : Z) (ts : list Z)
    (n : nat) (c : Counter.t) (tk : Q) :
  0 < rate -> 0 < per_seconds ->
  rate * per_seconds <= MAX_SAFE_INTEGER ->
  0 <= l -> t <= MAX_SAFE_INTEGER ->
  Bucket.active (Counter.bucket c) = true ->
  Counter.last c = Num.of_Z l ->
  Bucket.tokens (Counter.bucket c) = Fin tk ->
  (tk == 0)%Q ->
  forallb (fun t' => (0 <=? t') && (t' <=? MAX_SAFE_INTEGER) &&
                     ((t' - l) / 1000 <? per_seconds)) ts = true ->
  per_seconds * 1000 <= t - l ->
  let request :=
    request_of (Num.of_Z (rate * per_seconds)) (Num.of_Z per_seconds)
      Behavior.Blocking in
  statuses (fst (serve c
    (at_times request (map Num.of_Z ts) ++ repeat (Num.of_Z t, request) n)))
  = repeat 429 (length ts)
    ++ repeat 200 (Nat.min (Z.to_nat (rate * per_seconds)) n)
    ++ repeat 429 (n - Z.to_nat (rate * per_seconds)).
Proof.
  intros Hr Hs _ _ _ Ha Hl Hk Hz Hts Hw request. rewrite serve_app.
  assert (Hrs : 0 < rate * per_seconds) by nia.
  assert (Hts' : forallb (fun t' => (t' - l) / 1000 <? per_seconds) ts = true).
  { revert Hts. apply forallb_weaken. intros x E.
    apply andb_true_iff in E. apply E. }
  pose proof (hold_run (rate * per_seconds) per_seconds l ts c tk Hrs Hs
                Hl Hk ltac:(rewrite Hz; apply Qle_refl) Hts') as H.
  fold request in H.
  destruct (serve c (at_times request (map Num.of_Z ts)))
    as [responses1 c1].
  destruct H as (H1 & H2 & H3 & H4).
  pose proof (release_run (rate * per_seconds) per_seconds t l n c1 tk
                Hrs Hs Hw (H4 (or_introl Ha)) H2 H3 Hz) as H.
  fold request in H.
  destruct (serve c1 (repeat (Num.of_Z t, request) n)) as [responses2 c2].
  cbn [fst] in *. unfold statuses in *. rewrite map_app, H1, H. reflexivity.
Qed.

Lemma hold_then_release_witness :
  let request :=
    request_of (Num.of_Z (1 * 3)) (Num.of_Z 3) Behavior.Blocking in
  statuses (fst (serve
    (Counter.mk ∅ (Num.of_Z 5000) (Bucket.mk (Num.of_Z 3) (Num.of_Z 0) true))
    (at_times request (map Num.of_Z [5000; 7000; 7999])
     ++ repeat (Num.of_Z 8000, request) 4)))
  = repeat 429 3 ++ repeat 200 3 ++ repeat 429 1.
Proof.
  apply (hold_then_release 1 3 5000 8000 [5000; 7000; 7999] 4
           (Counter.mk ∅ (Num.of_Z 5000)
              (Bucket.mk (Num.of_Z 3) (Num.of_Z 0) true)) 0);
    try (unfold MAX_SAFE_INTEGER; lia); reflexivity.
Defined.

(** ** A quota without a window *)

Lemma configuration_fixed_quota (requests : Z) (behavior : value) :
  requests <> 0 ->
  Counter.configuration (fixed_quota requests behavior) =
    Configuration.mk (Some (Num.of_Z requests)) None
      (Configuration.param DEFAULT_BEHAVIOR behavior).
Proof.
  intros Hr. unfold Counter.configuration, fixed_quota.
  cbn [_configuration parsed_requests parsed_per_seconds parsed_behavior].
  unfold Configuration.constructor. cbn [Configuration.param Number].
  rewrite or_null_of_Z by assumption. reflexivity.
Qed.

Lemma fixed_quota_drain (requests : Z) (behavior : value)
    (nows : list number) :
  0 < requests ->
  forall (k : nat) (c : Counter.t) (tk : Q),
    Bucket.active (Counter.bucket c) = true ->
    Bucket.tokens (Counter.bucket c) = Fin tk ->
    (tk == inject_Z (Z.of_nat k))%Q ->
    Z.of_nat k <= requests ->
    statuses (fst (serve c (at_times (fixed_quota requests behavior) nows)))
      = repeat 200 (Nat.min k (length nows))
        ++ repeat 429 (length nows - k).
Proof.
  intros Hr.
  induction nows as [|now nows IH]; intros k c tk Ha Hk Hq Hle.
  - rewrite Nat.min_0_r. reflexivity.
  - cbn [at_times map length]. rewrite statuses_serve_cons.
    fold (at_times (fixed_quota requests behavior) nows).
    pose proof (fetch_step now (fixed_quota requests behavior) c
                  (Num.of_Z requests)) as H.
    cbv zeta in H. rewrite configuration_fixed_quota in H by lia.
    specialize (H eq_refl).
    assert (E : exists x, (x == tk)%Q /\
                tokens_before_take
                  (Configuration.mk (Some (Num.of_Z requests)) None
                     (Configuration.param DEFAULT_BEHAVIOR behavior))
                  (Num.of_Z requests) (Counter.current_time now) c = Fin x).
    { unfold tokens_before_take, held, refill.
      cbn [Configuration.per_seconds]. rewrite andb_false_r, Ha, Hk.
      unfold Num.of_Z, Num.sub. rewrite min_Fin. unfold Num.add.
      eexists. split; [|reflexivity].
      assert (tk <= inject_Z requests)%Q
        by (rewrite Hq, <- Zle_Qle; exact Hle).
      destruct (Qle_bool _ _) eqn:E.
      - apply Qle_bool_iff in E. change (inject_Z 0) with 0%Q in E. lra.
      - change (inject_Z 0) with 0%Q. ring. }
    destruct E as (x & Hx & E). rewrite E, le_Fin_0 in H.
    destruct (Counter.fetch now _ c) as [response c1]. cbn [fst snd].
    destruct H as (Hst & _ & Hb'). rewrite Hst.
    destruct k as [|k].
    + replace (Qle_bool x 0) with true in *
        by (symmetry; apply Qle_bool_iff; rewrite Hx, Hq; apply Qle_refl).
      rewrite (IH 0%nat c1 x); auto.
      * rewrite Nat.sub_0_r. reflexivity.
      * rewrite Hb'. reflexivity.
      * rewrite Hb'. reflexivity.
      * rewrite Hx. exact Hq.
    + replace (Qle_bool x 0) with false in *.
      * rewrite (IH k c1 (x - inject_Z 1)%Q); auto.
        -- rewrite Hb'. reflexivity.
        -- rewrite Hb'. reflexivity.
        -- rewrite Hx, Hq, Nat2Z.inj_succ. unfold Z.succ.
           rewrite inject_Z_plus. ring.
        -- lia.
      * symmetry. apply Qle_bool_gt. rewrite Hx, Hq.
        change 0%Q with (inject_Z 0). rewrite <- Zlt_Qlt. lia.
Qed.

(** A quota without a window is a one-time allowance: from a never-seen
    identifier, whatever the clock reads at each request and whatever the
    behavior, the first [requests] requests are allowed and every later one
    is denied. *)
Theorem fixed_quota_is_one_time (requests : Z) (behavior : value)
    (nows : list number) :
  0 < requests ->
  statuses (fst (serve initial (at_times (fixed_quota requests behavior) nows)))
  = repeat 200 (Nat.min (Z.to_nat requests) (length nows))
    ++ repeat 429 (length nows - Z.to_nat requests).
Proof.
  intros Hr. destruct nows as [|now nows]; [rewrite Nat.min_0_r; reflexivity|].
  cbn [at_times map length]. rewrite statuses_serve_cons.
  fold (at_times (fixed_quota requests behavior) nows).
  pose proof (fetch_step now (fixed_quota requests behavior) initial
                (Num.of_Z requests)) as H.
  cbv zeta in H. rewrite configuration_fixed_quota in H by lia.
  specialize (H eq_refl).
  assert (E : exists x, (x == inject_Z requests)%Q /\
              tokens_before_take
                (Configuration.mk (Some (Num.of_Z requests)) None
                   (Configuration.param DEFAULT_BEHAVIOR behavior))
                (Num.of_Z requests) (Counter.current_time now) initial
              = Fin x).
  { unfold tokens_before_take, held, refill.
    cbn [Configuration.per_seconds]. rewrite andb_false_r.
    change (Bucket.tokens (Counter.bucket initial)) with (Num.of_Z 0).
    change (Bucket.active (Counter.bucket initial)) with false.
    unfold Num.of_Z, Num.sub. rewrite min_Fin. unfold Num.add.
    eexists. split; [|reflexivity].
    change (inject_Z 0) with 0%Q.
    destruct (Qle_bool _ _); ring. }
  destruct E as (x & Hx & E). rewrite E, le_Fin_0 in H.
  replace (Qle_bool x 0) with false in H.
  - destruct (Counter.fetch now _ initial) as [response c1]. cbn [fst snd].
    destruct H as (Hst & _ & Hb'). rewrite Hst.
    rewrite (fixed_quota_drain requests behavior nows Hr
               (Z.to_nat (requests - 1)) c1 (x - inject_Z 1)%Q).
    + replace (Z.to_nat requests) with (S (Z.to_nat (requests - 1))) by lia.
      reflexivity.
    + rewrite Hb'. reflexivity.
    + rewrite Hb'. reflexivity.
    + rewrite Hx, Z2Nat.id by lia. unfold Z.sub.
      rewrite inject_Z_plus. reflexivity.
    + lia.
  - symmetry. apply Qle_bool_gt. rewrite Hx.
    change 0%Q with (inject_Z 0). rewrite <- Zlt_Qlt. exact Hr.
Qed.

Lemma fixed_quota_is_one_time_witness :
  statuses (fst (serve initial
    (at_times (fixed_quota 2 (num Behavior.Throttling))
       [Num.of_Z 1700000000000; Num.of_Z 0; NaN; Num.of_Z 1900000000000])))
  = [200; 200; 429; 429].
Proof.
  apply (fixed_quota_is_one_time 2 (num Behavior.Throttling)
           [Num.of_Z 1700000000000; Num.of_Z 0; NaN;
            Num.of_Z 1900000000000]).
  lia.
Defined.

Example fixed_quota_from_headers :
  Worker.request_for (snd (Worker.default None (Some "10") None))
  = fixed_quota 10 (num Behavior.Blocking).
Proof. reflexivity. Qed.

(** ** The Worker and the header it sends *)

(** The configuration the Durable Object rebuilds from the header is the
    one the Worker built, field by field, except that a quota or window
    that is not finite arrives as [null] (no limit, no window) and a
    behavior that is not a finite number arrives as [null]; whether the
    behavior is [Blocking] is kept. *)
Theorem header_round_trip (requests per_seconds behavior : value) :
  let sent := Configuration.constructor requests per_seconds behavior in
  let received := Counter.configuration (Worker.request_for sent) in
  Configuration.requests received
    = finite_only (Configuration.requests sent) /\
  Configuration.per_seconds received
    = finite_only (Configuration.per_seconds sent) /\
  Configuration.behavior received
    = Worker.json (Configuration.behavior sent) /\
  not_Blocking (Configuration.behavior received)
    = not_Blocking (Configuration.behavior sent).
Proof.
  assert (H : forall n, or_null (Number (Configuration.param null
                (Worker.json_field (or_null n)))) = finite_only (or_null n)).
  { intros [| s | q]; try reflexivity.
    unfold or_null at 2 3. destruct (Num.truthy (Fin q)) eqn:E; cbn.
    - unfold or_null. rewrite E. reflexivity.
    - reflexivity. }
  cbn -[or_null Number]. rewrite !H.
  assert (Hb : forall v, Configuration.param DEFAULT_BEHAVIOR
                (Worker.json (Configuration.param DEFAULT_BEHAVIOR v))
              = Worker.json (Configuration.param DEFAULT_BEHAVIOR v)).
  { intros [| | ? | [| |] | |]; reflexivity. }
  rewrite Hb. repeat split.
  destruct behavior as [| | ? | [| |] | |]; reflexivity.
Qed.

Example infinite_quota_is_no_limit :
  let sent := snd (Worker.default None (Some "Infinity") (Some "10")) in
  Configuration.requests sent = Some (Infinity false) /\
  Configuration.requests (Counter.configuration (Worker.request_for sent))
    = None.
Proof. split; reflexivity. Qed.

(** With the default strategy, a [_requests] header that is absent, or
    reads as zero or as no number, means no limit: the request is never
    rate limited, whatever the other headers, the clock and the state of
    the Durable Object. *)
Theorem no_quota_never_limited (cf_connecting_ip _requests _per_seconds
    : option string) (now : number) (c : Counter.t) :
  Num.truthy (Number (Worker.header _requests)) = false ->
  fst (Worker.rate_exceeded
         (snd (Worker.default cf_connecting_ip _requests _per_seconds))
         now c) = false.
Proof.
  intros H. unfold Worker.rate_exceeded, bind, ret.
  assert (E : Configuration.requests (Counter.configuration
                (Worker.request_for
                   (snd (Worker.default cf_connecting_ip _requests
                           _per_seconds)))) = None).
  { cbn -[or_null Number].
    replace (Configuration.param null (Worker.header _requests))
      with (Worker.header _requests) by (destruct _requests; reflexivity).
    unfold or_null at 2. rewrite H. reflexivity. }
  unfold Counter.fetch. rewrite E, respond_true. reflexivity.
Qed.

Lemma no_quota_never_limited_witness :
  Num.truthy (Number (Worker.header (Some "unlimited"%string))) = false /\
  fst (Worker.rate_exceeded
         (snd (Worker.default None (Some "unlimited"%string)
                 (Some "10"%string)))
         (Num.of_Z 1700000000000) exhausted_at_5000) = false.
Proof.
  split; [reflexivity|].
  apply (no_quota_never_limited None (Some "unlimited"%string)
           (Some "10"%string)).
  reflexivity.
Defined.

(** ** No more than the quota at once *)









